(** * seaborn-image: the plotting entry points [imgplot] and [imghist]

    A shallow embedding of [src/seaborn_image/_general.py].

    The two functions are glue code: they inspect their keyword arguments,
    raise on ill-formed ones, and then drive matplotlib, numpy, scipy,
    scikit-image and the package's own [_SetupImage] helper.  The embedding
    keeps the two halves apart the way the code does:

    - the Python values the checks look at are an inductive type [pyval]
      with the operations the checks use ([isinstance], [is], [in], [len],
      indexing, [<], [>]) written out;
    - everything the functions ask of a collaborator is a [call]; a function
      body is a tree of calls ([prog]), each call followed by what the code
      does with the answer.  An exception raised by a collaborator passes
      through unmodified, so only the exceptions raised by the code itself
      appear in the tree. *)

From Stdlib Require Import ZArith QArith String List Bool Lia.
Import ListNotations.
Open Scope string_scope.
Open Scope Z_scope.

(** ** Python values *)

Module Py.

(** The exception classes the two functions can raise themselves. *)
Inductive exn : Type :=
| TypeError
| ValueError
| AssertionError
| IndexError
| AttributeError
| UnboundLocalError.

(** Outcome of a pure Python expression: a value or a raised exception. *)
Inductive result (A : Type) : Type :=
| Ok (a : A)
| Err (e : exn).
Arguments Ok {A} a.
Arguments Err {A} e.

Definition rbind {A B} (r : result A) (f : A -> result B) : result B :=
  match r with
  | Ok a => f a
  | Err e => Err e
  end.

(** A float is carried as the number it denotes.  Comparisons in Python are
    exact on the denoted numbers (also between [int] and [float]), so nothing
    is lost for [<], [>=] and [==]. *)
Inductive pyfloat : Type :=
| FNaN
| FPosInf
| FNegInf
| FFin (q : Q).

#[local] Set Warnings "-register-all".
Inductive pyval : Type :=
| VNone
| VBool (b : bool)
| VInt (z : Z)
| VFloat (f : pyfloat)
| VStr (s : string)      (* ASCII text *)
| VTuple (l : list pyval)
| VList (l : list pyval)
| VColormap (id : nat)   (* an instance of matplotlib.colors.Colormap *)
| VAxes (id : nat)       (* an instance of matplotlib.axes.Axes *)
| VObject (id : nat).    (* an instance of any other class, no special methods *)

(** Induction over [pyval] that reaches inside tuples and lists. *)
Section PyvalInd.
Variable P : pyval -> Prop.
Hypothesis HNone : P VNone.
Hypothesis HBool : forall b, P (VBool b).
Hypothesis HInt : forall z, P (VInt z).
Hypothesis HFloat : forall f, P (VFloat f).
Hypothesis HStr : forall s, P (VStr s).
Hypothesis HTuple : forall l, Forall P l -> P (VTuple l).
Hypothesis HList : forall l, Forall P l -> P (VList l).
Hypothesis HColormap : forall i, P (VColormap i).
Hypothesis HAxes : forall i, P (VAxes i).
Hypothesis HObject : forall i, P (VObject i).

Fixpoint pyval_nested_ind (v : pyval) : P v :=
  let all :=
    fix all (l : list pyval) : Forall P l :=
      match l with
      | [] => Forall_nil P
      | x :: l' => Forall_cons x (pyval_nested_ind x) (all l')
      end in
  match v with
  | VNone => HNone
  | VBool b => HBool b
  | VInt z => HInt z
  | VFloat f => HFloat f
  | VStr s => HStr s
  | VTuple l => HTuple l (all l)
  | VList l => HList l (all l)
  | VColormap i => HColormap i
  | VAxes i => HAxes i
  | VObject i => HObject i
  end.
End PyvalInd.

(** *** Type tests *)

(** [isinstance(v, bool)] *)
Definition isinstance_bool (v : pyval) : bool :=
  match v with VBool _ => true | _ => false end.

(** [isinstance(v, int)]: [bool] is a subclass of [int]. *)
Definition isinstance_int (v : pyval) : bool :=
  match v with VInt _ | VBool _ => true | _ => false end.

(** [isinstance(v, str)] *)
Definition isinstance_str (v : pyval) : bool :=
  match v with VStr _ => true | _ => false end.

(** [isinstance(v, Colormap)] *)
Definition isinstance_Colormap (v : pyval) : bool :=
  match v with VColormap _ => true | _ => false end.

(** [isinstance(v, Axes)] *)
Definition isinstance_Axes (v : pyval) : bool :=
  match v with VAxes _ => true | _ => false end.

(** [v is None] *)
Definition is_None (v : pyval) : bool :=
  match v with VNone => true | _ => false end.

(** [v is True]: identity with the singleton [True]; [1] is not [True]. *)
Definition is_True (v : pyval) : bool :=
  match v with VBool true => true | _ => false end.

(** *** Numbers and comparisons *)

(** The number a value stands for in arithmetic and comparisons. *)
Definition as_number (v : pyval) : option pyfloat :=
  match v with
  | VBool b => Some (FFin (if b then 1 else 0)%Q)
  | VInt z => Some (FFin (inject_Z z))
  | VFloat f => Some f
  | _ => None
  end.

(** Three-way comparison of floats; [None] when a NaN takes part. *)
Definition float_compare (a b : pyfloat) : option comparison :=
  match a, b with
  | FNaN, _ | _, FNaN => None
  | FFin p, FFin q => Some (p ?= q)%Q
  | FNegInf, FNegInf => Some Eq
  | FPosInf, FPosInf => Some Eq
  | FNegInf, _ => Some Lt
  | _, FNegInf => Some Gt
  | FPosInf, _ => Some Gt
  | _, FPosInf => Some Lt
  end.

Inductive cmpop : Type := OpLt | OpLe | OpGt | OpGe.

(** Whether [a op b] holds, given how [a] and [b] compare.  With a NaN every
    ordering test is false. *)
Definition op_holds (op : cmpop) (c : option comparison) : bool :=
  match c with
  | None => false
  | Some Lt => match op with OpLt | OpLe => true | _ => false end
  | Some Eq => match op with OpLe | OpGe => true | _ => false end
  | Some Gt => match op with OpGt | OpGe => true | _ => false end
  end.

(** [a == b].  Values are compared by value; the identity shortcut that
    containers take for their elements is not modelled: it makes a
    difference for a NaN that occurs twice, as one object, in the tuples
    or lists compared. *)
Fixpoint py_eq (a b : pyval) : bool :=
  let seq_eq :=
    fix seq_eq (l m : list pyval) : bool :=
      match l, m with
      | [], [] => true
      | x :: l', y :: m' => py_eq x y && seq_eq l' m'
      | _, _ => false
      end in
  match a, b with
  | VNone, VNone => true
  | VStr s, VStr t => String.eqb s t
  | VTuple l, VTuple m => seq_eq l m
  | VList l, VList m => seq_eq l m
  | VColormap i, VColormap j => Nat.eqb i j
  | VAxes i, VAxes j => Nat.eqb i j
  | VObject i, VObject j => Nat.eqb i j
  | _, _ =>
      match as_number a, as_number b with
      | Some x, Some y =>
          match float_compare x y with Some Eq => true | _ => false end
      | _, _ => false
      end
  end.

(** [a op b] for the ordering operators: numbers among themselves, strings
    among themselves, tuples and lists lexicographically among their own
    kind; every other pairing is a [TypeError]. *)
Fixpoint py_richcmp (op : cmpop) (a b : pyval) : result bool :=
  let seq_cmp :=
    fix seq_cmp (l m : list pyval) : result bool :=
      match l, m with
      | x :: l', y :: m' =>
          if py_eq x y then seq_cmp l' m' else py_richcmp op x y
      | _, _ =>
          Ok (op_holds op (Some (Nat.compare (length l) (length m))))
      end in
  match a, b with
  | VStr s, VStr t => Ok (op_holds op (Some (String.compare s t)))
  | VTuple l, VTuple m => seq_cmp l m
  | VList l, VList m => seq_cmp l m
  | _, _ =>
      match as_number a, as_number b with
      | Some x, Some y => Ok (op_holds op (float_compare x y))
      | _, _ => Err TypeError
      end
  end.

Definition py_lt := py_richcmp OpLt.
Definition py_gt := py_richcmp OpGt.
Definition py_ge := py_richcmp OpGe.

(** [v in l] for a list display [l]. *)
Definition py_in (v : pyval) (l : list pyval) : bool :=
  existsb (fun x => py_eq v x) l.

(** [len(v)] *)
Definition py_len (v : pyval) : result nat :=
  match v with
  | VStr s => Ok (String.length s)
  | VTuple l | VList l => Ok (List.length l)
  | _ => Err TypeError
  end.

(** [v[i]] for a non-negative literal index [i]. *)
Definition py_getitem (v : pyval) (i : nat) : result pyval :=
  match v with
  | VStr s =>
      match String.get i s with
      | Some c => Ok (VStr (String c EmptyString))
      | None => Err IndexError
      end
  | VTuple l | VList l =>
      match nth_error l i with
      | Some x => Ok x
      | None => Err IndexError
      end
  | _ => Err TypeError
  end.

(** Truth value of [v] in [if v:] and [not v]. *)
Definition py_truth (v : pyval) : bool :=
  match v with
  | VNone => false
  | VBool b => b
  | VInt z => negb (z =? 0)
  | VFloat f =>
      match float_compare f (FFin 0%Q) with Some Eq => false | _ => true end
  | VStr s => negb (String.eqb s "")
  | VTuple l | VList l => match l with [] => false | _ => true end
  | VColormap _ | VAxes _ | VObject _ => true
  end.

End Py.
Import Py.

(** ** Arrays and the objects of the collaborators *)

(** A one-dimensional numeric array: the edges, counts and colour values
    numpy and matplotlib hand back, and a flattened image. *)
Definition vec : Type := list pyfloat.

(** [numpy.ndarray]: its shape and its items in row-major order. *)
Record ndarray : Type := { shape : list nat; items : vec }.

(** [a.ndim] *)
Definition ndim (a : ndarray) : nat := List.length (shape a).

(** The [data] argument is "array-like": an [ndarray], or some other value
    of the universe above.  The values of Python's built-in types among
    these (a nested list, say) have neither [flatten] nor [ravel]; an
    instance of another class is taken to have neither as well, and what
    is stated of the [AttributeError] is stated of built-in values. *)
Inductive pydata : Type :=
| DNdarray (a : ndarray)
| DOther (v : pyval).

(** [data.flatten()] and [data.ravel()] *)
Definition flatten (d : pydata) : result vec :=
  match d with
  | DNdarray a => Ok (items a)
  | DOther _ => Err AttributeError
  end.

Definition ravel (d : pydata) : result vec := flatten d.

(** Objects owned by the collaborators are known by a handle only. *)
Definition figure : Type := nat.
Definition gridspec : Type := nat.
Definition axes : Type := nat.
Definition patch : Type := nat.
Definition colormap : Type := nat.
Definition plotter : Type := nat.   (* an instance of _SetupImage *)
Definition rgba : Type := nat.      (* what a colormap returns for a value *)

Inductive axis : Type := XAxis | YAxis.

(** The keyword arguments [imgplot] hands to [_SetupImage]. *)
Module SetupImageArgs.
Record t : Type := {
  data : pydata;
  ax : pyval;
  cmap : pyval;
  vmin : pyval;
  vmax : pyval;
  robust : pyval;
  perc : pyval;
  dx : pyval;
  units : pyval;
  dimension : pyval;
  cbar : pyval;
  orientation : pyval;
  cbar_label : pyval;
  cbar_ticks : pyval;
  showticks : pyval;
  despine : pyval
}.
End SetupImageArgs.

(** What [scipy.stats.describe] returns, as far as it is printed. *)
Record DescribeResult : Type := {
  nobs : pyval;
  minmax : pyval * pyval;
  mean : pyval;
  variance : pyval;
  skewness : pyval
}.

(** Which ratios keyword [GridSpec] is given. *)
Inductive ratios_kw : Type :=
| width_ratios (r : list Q)
| height_ratios (r : list Q).

(** ** Calls to collaborators

    One constructor per call expression of the two functions, with the
    arguments the code passes; [ret c] is the type of the answer. *)
Inductive call : Type :=
| Rgb2gray (data : ndarray)                      (* rgb2gray(data) *)
| SetupImage (kw : SetupImageArgs.t)             (* _SetupImage(...) *)
| SetupImage_plot (img_plotter : plotter)        (* img_plotter.plot() *)
| SsDescribe (x : vec)                           (* ss.describe(...) *)
| Print (label : string) (v : pyval)             (* print(f"<label>{v}") *)
| PltFigure (figsize : Q * Q)                    (* plt.figure(figsize=...) *)
| GridSpec (nrows ncols : nat) (r : ratios_kw) (f : figure)
                                       (* gridspec.GridSpec(..., figure=f) *)
| AddSubplot (f : figure) (gs : gridspec) (i : nat)
    (share : option (axis * axes))               (* f.add_subplot(gs[i], ...) *)
| FigAxes (f : figure)                           (* f.axes *)
| AxHist (ax2 : axes) (x : vec) (bins : pyval) (density : bool)
    (orientation : string)                       (* ax2.hist(...) *)
| AxisSetVisible (ax2 : axes) (which : axis) (b : bool)
                                       (* ax2.get_xaxis().set_visible(b) *)
| SetFrameOn (ax2 : axes) (b : bool)             (* ax2.set_frame_on(b) *)
| GetCmap                                        (* get_cmap() *)
| CmapQualContains (cmap : pyval)                (* cmap in _CMAP_QUAL.keys() *)
| CmapQualGet (cmap : pyval)           (* _CMAP_QUAL.get(cmap).mpl_colormap *)
| PltCmGetCmap (cmap : pyval)                    (* plt.cm.get_cmap(cmap) *)
| NpAdd (a b : vec)                              (* a + b *)
| NpMin (a : vec)                                (* np.min(a) *)
| NpSub (a : vec) (s : pyfloat)                  (* a - s *)
| NpMax (a : vec)                                (* np.max(a) *)
| NpIDiv (a : vec) (s : pyfloat)                 (* a /= s *)
| CmCall (cm : colormap) (c : pyfloat)           (* cm(c) *)
| PltSetp (p : patch) (prop : string) (v : rgba). (* plt.setp(p, prop, v) *)

Definition ret (c : call) : Type :=
  match c with
  | Rgb2gray _ => ndarray
  | SetupImage _ => plotter
  | SetupImage_plot _ => (figure * axes * pyval)%type
  | SsDescribe _ => DescribeResult
  | Print _ _ => unit
  | PltFigure _ => figure
  | GridSpec _ _ _ _ => gridspec
  | AddSubplot _ _ _ _ => axes
  | FigAxes _ => list axes
  | AxHist _ _ _ _ _ => (vec * vec * list patch)%type
  | AxisSetVisible _ _ _ => unit
  | SetFrameOn _ _ => unit
  | GetCmap => colormap
  | CmapQualContains _ => bool
  | CmapQualGet _ => colormap
  | PltCmGetCmap _ => colormap
  | NpAdd _ _ => vec
  | NpMin _ => pyfloat
  | NpSub _ _ => vec
  | NpMax _ => pyfloat
  | NpIDiv _ _ => vec
  | CmCall _ _ => rgba
  | PltSetp _ _ _ => unit
  end.

(** ** Programs over the calls *)

(** A function body: it returns, raises an exception of its own, or makes a
    call and goes on with the answer.  When the collaborator raises instead
    of answering, the exception propagates: nothing in the two functions
    catches one. *)
Inductive prog (R : Type) : Type :=
| Ret (r : R)
| Raise (e : exn)
| Call (c : call) (k : ret c -> prog R).
Arguments Ret {R} r.
Arguments Raise {R} e.
Arguments Call {R} c k.

Fixpoint bind {A B} (p : prog A) (f : A -> prog B) : prog B :=
  match p with
  | Ret a => f a
  | Raise e => Raise e
  | Call c k => Call c (fun x => bind (k x) f)
  end.

(** A single call. *)
Definition ask (c : call) : prog (ret c) := Call c (fun x => Ret x).

(** A pure expression that may raise. *)
Definition lift {A} (r : result A) : prog A :=
  match r with
  | Ok a => Ret a
  | Err e => Raise e
  end.

Declare Scope prog_scope.
Delimit Scope prog_scope with prog.
Notation "x <- p ;; q" := (bind p (fun x => q))
  (at level 61, p at next level, right associativity) : prog_scope.
Notation "' pat <- p ;; q" := (bind p (fun x => match x with pat => q end))
  (at level 61, pat pattern, p at next level, right associativity) : prog_scope.
Notation "p ;; q" := (bind p (fun _ => q))
  (at level 61, right associativity) : prog_scope.

(** *** Properties of programs *)

(** Every call the program can make, whatever the collaborators answer,
    satisfies [P]. *)
Fixpoint all_calls {R} (P : call -> Prop) (p : prog R) : Prop :=
  match p with
  | Ret _ => True
  | Raise _ => True
  | Call c k => P c /\ forall x, all_calls P (k x)
  end.

(** For some answers of the collaborators the program makes a call that
    satisfies [P]. *)
Fixpoint some_call {R} (P : call -> Prop) (p : prog R) : Prop :=
  match p with
  | Ret _ => False
  | Raise _ => False
  | Call c k => P c \/ exists x, some_call P (k x)
  end.

(** For some answers of the collaborators the program makes exactly the
    calls [tr], in this order, and then raises [e] itself. *)
Fixpoint raises_after {R} (p : prog R) (tr : list call) (e : exn) : Prop :=
  match p with
  | Ret _ => False
  | Raise e' => tr = [] /\ e' = e
  | Call c k =>
      exists x tr', tr = c :: tr' /\ raises_after (k x) tr' e
  end.

(** For some answers of the collaborators the program makes exactly the
    calls [tr], in this order, and then returns [r]. *)
Fixpoint returns_after {R} (p : prog R) (tr : list call) (r : R) : Prop :=
  match p with
  | Ret r' => tr = [] /\ r' = r
  | Raise _ => False
  | Call c k =>
      exists x tr', tr = c :: tr' /\ returns_after (k x) tr' r
  end.

(** The program raises nothing itself as long as every answer it gets
    satisfies [ok]; being a finite tree, it then returns. *)
Fixpoint completes {R} (ok : forall c, ret c -> Prop) (p : prog R) : Prop :=
  match p with
  | Ret _ => True
  | Raise _ => False
  | Call c k => forall x, ok c x -> completes ok (k x)
  end.

(** Whatever the collaborators answer, the program does not return
    without having made a call that satisfies [P]. *)
Fixpoint always_calls {R} (P : call -> Prop) (p : prog R) : Prop :=
  match p with
  | Ret _ => False
  | Raise _ => True
  | Call c k => P c \/ forall x, always_calls P (k x)
  end.

(** Whatever the collaborators answer, the program raises no exception of
    the classes [V] itself. *)
Fixpoint never_raises {R} (V : exn -> bool) (p : prog R) : Prop :=
  match p with
  | Ret _ => True
  | Raise e => V e = false
  | Call c k => forall x, never_raises V (k x)
  end.

(** *** Running a program against given collaborators *)

(** Collaborators with a state of their own: each call is answered with a
    value or an exception. *)
Definition handler (W : Type) : Type :=
  forall c : call, W -> W * result (ret c).

Fixpoint run {W R} (h : handler W) (p : prog R) (w : W)
  : W * list call * result R :=
  match p with
  | Ret r => (w, [], Ok r)
  | Raise e => (w, [], Err e)
  | Call c k =>
      match h c w with
      | (w', Ok x) =>
          let '(w'', tr, r) := run h (k x) w' in (w'', c :: tr, r)
      | (w', Err e) => (w', [c], Err e)
      end
  end.

(** Whether every collaborator answers, none raising, in the run of [p]. *)
Fixpoint answers {W R} (h : handler W) (p : prog R) (w : W) : bool :=
  match p with
  | Ret _ | Raise _ => true
  | Call c k =>
      match h c w with
      | (w', Ok x) => answers h (k x) w'
      | (_, Err _) => false
      end
  end.

(** Collaborators that answer every call with a fixed value: the figure has
    two axes, the histogram three edges and two bars.  Used to exhibit
    executions. *)
Definition scripted : handler unit := fun c w =>
  (w,
   match c return result (ret c) with
   | Rgb2gray d =>
       Ok {| shape := removelast (shape d); items := [] |}
   | SetupImage _ => Ok 0%nat
   | SetupImage_plot _ => Ok (0%nat, 0%nat, VAxes 1)
   | SsDescribe _ =>
       Ok {| nobs := VInt 0; minmax := (VNone, VNone); mean := VNone;
             variance := VNone; skewness := VNone |}
   | Print _ _ => Ok tt
   | PltFigure _ => Ok 0%nat
   | GridSpec _ _ _ _ => Ok 0%nat
   | AddSubplot _ _ i _ => Ok (2 * i)%nat
   | FigAxes _ => Ok [0%nat; 1%nat]
   | AxHist _ _ _ _ _ =>
       Ok ([FFin 1; FFin 1], [FFin 0; FFin (1 # 2); FFin 1], [0%nat; 1%nat])
   | AxisSetVisible _ _ _ => Ok tt
   | SetFrameOn _ _ => Ok tt
   | GetCmap => Ok 0%nat
   | CmapQualContains _ => Ok false
   | CmapQualGet _ => Ok 0%nat
   | PltCmGetCmap _ => Ok 0%nat
   | NpAdd a _ => Ok a
   | NpMin _ => Ok (FFin 0)
   | NpSub a _ => Ok a
   | NpMax _ => Ok (FFin 1)
   | NpIDiv a _ => Ok a
   | CmCall _ _ => Ok 0%nat
   | PltSetp _ _ _ => Ok tt
   end).

(** ** The keyword arguments *)

(** The parameters of [imgplot], under their names. *)
Module ImgplotArgs.
Record t : Type := {
  data : pydata;
  ax : pyval;
  cmap : pyval;
  gray : pyval;
  vmin : pyval;
  vmax : pyval;
  robust : pyval;
  perc : pyval;
  dx : pyval;
  units : pyval;
  dimension : pyval;
  describe : pyval;
  cbar : pyval;
  orientation : pyval;
  cbar_label : pyval;
  cbar_ticks : pyval;
  showticks : pyval;
  despine : pyval
}.

(** The defaults of the signature, for a given [data]. *)
Definition defaults (d : pydata) : t := {|
  data := d;
  ax := VNone;
  cmap := VNone;
  gray := VNone;
  vmin := VNone;
  vmax := VNone;
  robust := VBool false;
  perc := VTuple [VInt 2; VInt 98];
  dx := VNone;
  units := VNone;
  dimension := VNone;
  describe := VBool true;
  cbar := VBool true;
  orientation := VStr "v";
  cbar_label := VNone;
  cbar_ticks := VNone;
  showticks := VBool false;
  despine := VBool true
|}.

(** The same arguments with one of them replaced. *)
Definition with_cmap (v : pyval) (a : t) : t := {|
  data := data a; ax := ax a; cmap := v; gray := gray a; vmin := vmin a;
  vmax := vmax a; robust := robust a; perc := perc a; dx := dx a;
  units := units a; dimension := dimension a; describe := describe a;
  cbar := cbar a; orientation := orientation a;
  cbar_label := cbar_label a; cbar_ticks := cbar_ticks a;
  showticks := showticks a; despine := despine a
|}.

Definition with_gray (v : pyval) (a : t) : t := {|
  data := data a; ax := ax a; cmap := cmap a; gray := v; vmin := vmin a;
  vmax := vmax a; robust := robust a; perc := perc a; dx := dx a;
  units := units a; dimension := dimension a; describe := describe a;
  cbar := cbar a; orientation := orientation a;
  cbar_label := cbar_label a; cbar_ticks := cbar_ticks a;
  showticks := showticks a; despine := despine a
|}.

Definition with_robust (v : pyval) (a : t) : t := {|
  data := data a; ax := ax a; cmap := cmap a; gray := gray a;
  vmin := vmin a; vmax := vmax a; robust := v; perc := perc a;
  dx := dx a; units := units a; dimension := dimension a;
  describe := describe a; cbar := cbar a; orientation := orientation a;
  cbar_label := cbar_label a; cbar_ticks := cbar_ticks a;
  showticks := showticks a; despine := despine a
|}.

Definition with_perc (v : pyval) (a : t) : t := {|
  data := data a; ax := ax a; cmap := cmap a; gray := gray a;
  vmin := vmin a; vmax := vmax a; robust := robust a; perc := v;
  dx := dx a; units := units a; dimension := dimension a;
  describe := describe a; cbar := cbar a; orientation := orientation a;
  cbar_label := cbar_label a; cbar_ticks := cbar_ticks a;
  showticks := showticks a; despine := despine a
|}.

Definition with_cbar (v : pyval) (a : t) : t := {|
  data := data a; ax := ax a; cmap := cmap a; gray := gray a;
  vmin := vmin a; vmax := vmax a; robust := robust a; perc := perc a;
  dx := dx a; units := units a; dimension := dimension a;
  describe := describe a; cbar := v; orientation := orientation a;
  cbar_label := cbar_label a; cbar_ticks := cbar_ticks a;
  showticks := showticks a; despine := despine a
|}.

Definition with_describe (v : pyval) (a : t) : t := {|
  data := data a; ax := ax a; cmap := cmap a; gray := gray a;
  vmin := vmin a; vmax := vmax a; robust := robust a; perc := perc a;
  dx := dx a; units := units a; dimension := dimension a; describe := v;
  cbar := cbar a; orientation := orientation a;
  cbar_label := cbar_label a; cbar_ticks := cbar_ticks a;
  showticks := showticks a; despine := despine a
|}.
End ImgplotArgs.

(** The parameters of [imghist].  It takes neither [ax] nor [gray];
    [height] and [aspect] are numbers, carried as the rationals they denote:
    [imghist] multiplies and subtracts them exactly here, in floating point
    in Python when they are floats, so the statements say nothing of the
    products and differences. *)
Module ImghistArgs.
Record t : Type := {
  data : pydata;
  cmap : pyval;
  bins : pyval;
  vmin : pyval;
  vmax : pyval;
  robust : pyval;
  perc : pyval;
  dx : pyval;
  units : pyval;
  dimension : pyval;
  describe : pyval;
  cbar : pyval;
  orientation : pyval;
  cbar_label : pyval;
  cbar_ticks : pyval;
  showticks : pyval;
  despine : pyval;
  height : Q;
  aspect : Q
}.

Definition defaults (d : pydata) : t := {|
  data := d;
  cmap := VNone;
  bins := VNone;
  vmin := VNone;
  vmax := VNone;
  robust := VBool false;
  perc := VTuple [VInt 2; VInt 98];
  dx := VNone;
  units := VNone;
  dimension := VNone;
  describe := VBool true;
  cbar := VBool true;
  orientation := VStr "v";
  cbar_label := VNone;
  cbar_ticks := VNone;
  showticks := VBool false;
  despine := VBool true;
  height := 5%Q;
  aspect := (175 # 100)%Q
|}.

(** The same arguments with one of them replaced. *)
Definition with_cmap (v : pyval) (a : t) : t := {|
  data := data a; cmap := v; bins := bins a; vmin := vmin a;
  vmax := vmax a; robust := robust a; perc := perc a; dx := dx a;
  units := units a; dimension := dimension a; describe := describe a;
  cbar := cbar a; orientation := orientation a;
  cbar_label := cbar_label a; cbar_ticks := cbar_ticks a;
  showticks := showticks a; despine := despine a; height := height a;
  aspect := aspect a
|}.

Definition with_bins (v : pyval) (a : t) : t := {|
  data := data a; cmap := cmap a; bins := v; vmin := vmin a;
  vmax := vmax a; robust := robust a; perc := perc a; dx := dx a;
  units := units a; dimension := dimension a; describe := describe a;
  cbar := cbar a; orientation := orientation a;
  cbar_label := cbar_label a; cbar_ticks := cbar_ticks a;
  showticks := showticks a; despine := despine a; height := height a;
  aspect := aspect a
|}.

Definition with_robust (v : pyval) (a : t) : t := {|
  data := data a; cmap := cmap a; bins := bins a; vmin := vmin a;
  vmax := vmax a; robust := v; perc := perc a; dx := dx a;
  units := units a; dimension := dimension a; describe := describe a;
  cbar := cbar a; orientation := orientation a;
  cbar_label := cbar_label a; cbar_ticks := cbar_ticks a;
  showticks := showticks a; despine := despine a; height := height a;
  aspect := aspect a
|}.

Definition with_cbar (v : pyval) (a : t) : t := {|
  data := data a; cmap := cmap a; bins := bins a; vmin := vmin a;
  vmax := vmax a; robust := robust a; perc := perc a; dx := dx a;
  units := units a; dimension := dimension a; describe := describe a;
  cbar := v; orientation := orientation a; cbar_label := cbar_label a;
  cbar_ticks := cbar_ticks a; showticks := showticks a;
  despine := despine a; height := height a; aspect := aspect a
|}.

Definition with_orientation (v : pyval) (a : t) : t := {|
  data := data a; cmap := cmap a; bins := bins a; vmin := vmin a;
  vmax := vmax a; robust := robust a; perc := perc a; dx := dx a;
  units := units a; dimension := dimension a; describe := describe a;
  cbar := cbar a; orientation := v; cbar_label := cbar_label a;
  cbar_ticks := cbar_ticks a; showticks := showticks a;
  despine := despine a; height := height a; aspect := aspect a
|}.

Definition with_showticks (v : pyval) (a : t) : t := {|
  data := data a; cmap := cmap a; bins := bins a; vmin := vmin a;
  vmax := vmax a; robust := robust a; perc := perc a; dx := dx a;
  units := units a; dimension := dimension a; describe := describe a;
  cbar := cbar a; orientation := orientation a;
  cbar_label := cbar_label a; cbar_ticks := cbar_ticks a; showticks := v;
  despine := despine a; height := height a; aspect := aspect a
|}.

Definition with_describe (v : pyval) (a : t) : t := {|
  data := data a; cmap := cmap a; bins := bins a; vmin := vmin a;
  vmax := vmax a; robust := robust a; perc := perc a; dx := dx a;
  units := units a; dimension := dimension a; describe := v;
  cbar := cbar a; orientation := orientation a;
  cbar_label := cbar_label a; cbar_ticks := cbar_ticks a;
  showticks := showticks a; despine := despine a; height := height a;
  aspect := aspect a
|}.
End ImghistArgs.

(** ** [imgplot] *)

Declare Scope result_scope.
Delimit Scope result_scope with result.
Notation "x <- p ;; q" := (rbind p (fun x => q))
  (at level 61, p at next level, right associativity) : result_scope.
Notation "p ;; q" := (rbind p (fun _ => q))
  (at level 61, right associativity) : result_scope.

(** [if c: raise e] *)
Definition raise_if (c : bool) (e : exn) : result unit :=
  if c then Err e else Ok tt.

(** [assert c], assertions being enabled *)
Definition py_assert (c : bool) : result unit :=
  if c then Ok tt else Err AssertionError.

(** The two assertions on [perc] (lines 217-218). *)
Definition perc_asserts (perc : pyval) : result unit :=
  (n <- py_len perc ;;
   py_assert (Nat.eqb n 2) ;;
   p0 <- py_getitem perc 0 ;;
   p1 <- py_getitem perc 1 ;;
   lt <- py_lt p0 p1 ;;
   py_assert lt)%result.

(** The checks that open [imgplot] (lines 202-234), in their order.  No
    check looks at [data], [gray], [vmin], [vmax], [dx], [units],
    [dimension] or [cbar_ticks]. *)
Definition imgplot_checks (a : ImgplotArgs.t) : result unit :=
  let '(ImgplotArgs.Build_t _ ax cmap _ _ _ robust perc _ _ _
          describe cbar orientation cbar_label _ showticks despine) := a in
  ((if negb (is_None cmap)
    then raise_if (negb (isinstance_str cmap || isinstance_Colormap cmap))
           TypeError
    else Ok tt) ;;
   (if negb (is_None ax)
    then raise_if (negb (isinstance_Axes ax)) TypeError
    else Ok tt) ;;
   raise_if (negb (isinstance_bool describe)) TypeError ;;
   raise_if (negb (isinstance_bool robust)) TypeError ;;
   (if is_True robust then perc_asserts perc else Ok tt) ;;
   raise_if (negb (isinstance_bool cbar)) TypeError ;;
   raise_if (negb (isinstance_str orientation)) TypeError ;;
   (if negb (is_None cbar_label)
    then raise_if (negb (isinstance_str cbar_label)) TypeError
    else Ok tt) ;;
   raise_if (negb (isinstance_bool showticks)) TypeError ;;
   raise_if (negb (isinstance_bool despine)) TypeError)%result.

(** The six lines printed when [describe] is set (lines 268-274). *)
Definition print_description (x : vec) : prog unit :=
  (result <- ask (SsDescribe x) ;;
   ask (Print "No. of Obs. : " (nobs result)) ;;
   ask (Print "Min. Value : " (fst (minmax result))) ;;
   ask (Print "Max. Value : " (snd (minmax result))) ;;
   ask (Print "Mean : " (mean result)) ;;
   ask (Print "Variance : " (variance result)) ;;
   ask (Print "Skewness : " (skewness result)))%prog.

Definition imgplot (a : ImgplotArgs.t) : prog axes :=
  let '(ImgplotArgs.Build_t data ax cmap gray vmin vmax robust perc dx units
          dimension describe cbar orientation cbar_label cbar_ticks
          showticks despine) := a in
  (lift (imgplot_checks a) ;;
   (* lines 236-241 *)
   '(data, cbar, robust) <-
     match data with
     | DNdarray arr =>
         if Nat.eqb (ndim arr) 3 then
           if is_True gray then
             g <- ask (Rgb2gray arr) ;;
             Ret (DNdarray g, VBool false, VBool false)
           else Ret (data, VBool false, VBool false)
         else Ret (data, cbar, robust)
     | DOther _ => Ret (data, cbar, robust)
     end ;;
   (* lines 243-244 *)
   let cmap := if is_True gray && is_None cmap then VStr "gray" else cmap in
   (* lines 246-265 *)
   img_plotter <- ask (SetupImage {|
     SetupImageArgs.data := data;
     SetupImageArgs.ax := ax;
     SetupImageArgs.cmap := cmap;
     SetupImageArgs.vmin := vmin;
     SetupImageArgs.vmax := vmax;
     SetupImageArgs.robust := robust;
     SetupImageArgs.perc := perc;
     SetupImageArgs.dx := dx;
     SetupImageArgs.units := units;
     SetupImageArgs.dimension := dimension;
     SetupImageArgs.cbar := cbar;
     SetupImageArgs.orientation := orientation;
     SetupImageArgs.cbar_label := cbar_label;
     SetupImageArgs.cbar_ticks := cbar_ticks;
     SetupImageArgs.showticks := showticks;
     SetupImageArgs.despine := despine |}) ;;
   '(f, ax, cax) <- ask (SetupImage_plot img_plotter) ;;
   (* lines 267-274 *)
   (if py_truth describe then
      x <- lift (flatten data) ;;
      print_description x
    else Ret tt) ;;
   Ret ax)%prog.

(** ** [imghist] *)

(** The check of [bins] (lines 423-429); the result is what [bins] is bound
    to afterwards. *)
Definition imghist_bins (bins : pyval) : result pyval :=
  if is_None bins then Ok (VStr "auto")
  else
    (raise_if (negb (isinstance_int bins)) TypeError ;;
     gt <- py_gt bins (VInt 0) ;;
     raise_if (negb gt) ValueError ;;
     Ok bins)%result.

(** The keyword arguments [imghist] calls [imgplot] with (lines 448-466):
    its own, except that [ax] is the axes of the image panel, [orientation]
    the full word, and [gray] is left at its default. *)
Definition forwarded (a : ImghistArgs.t) (ax1 : axes) (orientation : pyval)
  : ImgplotArgs.t := {|
  ImgplotArgs.data := ImghistArgs.data a;
  ImgplotArgs.ax := VAxes ax1;
  ImgplotArgs.cmap := ImghistArgs.cmap a;
  ImgplotArgs.gray := VNone;
  ImgplotArgs.vmin := ImghistArgs.vmin a;
  ImgplotArgs.vmax := ImghistArgs.vmax a;
  ImgplotArgs.robust := ImghistArgs.robust a;
  ImgplotArgs.perc := ImghistArgs.perc a;
  ImgplotArgs.dx := ImghistArgs.dx a;
  ImgplotArgs.units := ImghistArgs.units a;
  ImgplotArgs.dimension := ImghistArgs.dimension a;
  ImgplotArgs.describe := ImghistArgs.describe a;
  ImgplotArgs.cbar := ImghistArgs.cbar a;
  ImgplotArgs.orientation := orientation;
  ImgplotArgs.cbar_label := ImghistArgs.cbar_label a;
  ImgplotArgs.cbar_ticks := ImghistArgs.cbar_ticks a;
  ImgplotArgs.showticks := ImghistArgs.showticks a;
  ImgplotArgs.despine := ImghistArgs.despine a
|}.

(** The loop that colours the bars (lines 505-506). *)
Fixpoint color_patches (cm : colormap) (l : list (pyfloat * patch))
  : prog unit :=
  match l with
  | [] => Ret tt
  | (c, p) :: l' =>
      (color <- ask (CmCall cm c) ;;
       ask (PltSetp p "facecolor" color) ;;
       color_patches cm l')%prog
  end.

Definition imghist (a : ImghistArgs.t) : prog figure :=
  let '(ImghistArgs.Build_t data cmap bins vmin vmax robust perc dx units
          dimension describe cbar orientation cbar_label cbar_ticks
          showticks despine height aspect) := a in
  (bins <- lift (imghist_bins bins) ;;
   (* lines 431-444 *)
   '(orientation, f, gs) <-
     (if py_in orientation [VStr "v"; VStr "vertical"] then
        f <- ask (PltFigure (height * aspect, height)%Q) ;;
        gs <- ask (GridSpec 1 2 (width_ratios [height - 1; 1]%Q) f) ;;
        Ret ((VStr "vertical", f, gs) : pyval * figure * gridspec)
      else if py_in orientation [VStr "h"; VStr "horizontal"] then
        f <- ask (PltFigure (height, height * aspect)%Q) ;;
        gs <- ask (GridSpec 2 1 (height_ratios [height - 1; 1]%Q) f) ;;
        Ret ((VStr "horizontal", f, gs) : pyval * figure * gridspec)
      else Raise ValueError) ;;
   (* lines 446-466 *)
   ax1 <- ask (AddSubplot f gs 0 None) ;;
   ax1 <- imgplot (forwarded a ax1 orientation) ;;
   (* line 469 *)
   fig_axes <- ask (FigAxes f) ;;
   cax <- lift (match nth_error fig_axes 1 with
                | Some x => Ok x
                | None => Err IndexError
                end) ;;
   (* lines 471-483 *)
   '(ax2, n, bins, patches) <-
     (if py_eq orientation (VStr "vertical") then
        ax2 <- ask (AddSubplot f gs 1 (Some (YAxis, cax))) ;;
        x <- lift (ravel data) ;;
        '(n, bins, patches) <- ask (AxHist ax2 x bins true "horizontal") ;;
        Ret ((ax2, n, bins, patches) : axes * vec * vec * list patch)
      else if py_eq orientation (VStr "horizontal") then
        ax2 <- ask (AddSubplot f gs 1 (Some (XAxis, cax))) ;;
        x <- lift (ravel data) ;;
        '(n, bins, patches) <- ask (AxHist ax2 x bins true "vertical") ;;
        Ret ((ax2, n, bins, patches) : axes * vec * vec * list patch)
      else
        (* [ax2] is unbound at its first use below *)
        Raise UnboundLocalError) ;;
   (* lines 485-489 *)
   (if negb (py_truth showticks) then
      ask (AxisSetVisible ax2 XAxis false) ;;
      ask (AxisSetVisible ax2 YAxis false)
    else Ret tt) ;;
   ask (SetFrameOn ax2 false) ;;
   (* lines 491-497 *)
   cm <-
     ((if is_None cmap then ask GetCmap
       else
         known <- ask (CmapQualContains cmap) ;;
         if known then ask (CmapQualGet cmap) else ask (PltCmGetCmap cmap))
      : prog colormap) ;;
   (* lines 499-503 *)
   bin_centers <- ask (NpAdd (removelast bins) (tl bins)) ;;
   lo <- ask (NpMin bin_centers) ;;
   col <- ask (NpSub bin_centers lo) ;;
   hi <- ask (NpMax col) ;;
   col <- ask (NpIDiv col hi) ;;
   (* lines 505-508 *)
   color_patches cm (combine col patches) ;;
   Ret f)%prog.

(** ** Vocabulary of the statements *)

(** The exception classes of the validation checks. *)
Definition is_validation (e : exn) : bool :=
  match e with
  | TypeError | ValueError | AssertionError => true
  | _ => false
  end.

(** [perc] has a length, and it is not 2. *)
Definition perc_wrong_length (perc : pyval) : Prop :=
  exists n, py_len perc = Ok n /\ n <> 2%nat.

(** [perc] is a pair with [perc[0] >= perc[1]]. *)
Definition perc_unordered (perc : pyval) : Prop :=
  py_len perc = Ok 2%nat /\
  exists p0 p1,
    py_getitem perc 0 = Ok p0 /\ py_getitem perc 1 = Ok p1 /\
    py_ge p0 p1 = Ok true.

(** The checks of [imgplot] that come before the one on [perc] pass:
    [cmap], [ax] and [describe] have their types. *)
Definition typed_before_perc (a : ImgplotArgs.t) : bool :=
  (is_None (ImgplotArgs.cmap a)
   || (isinstance_str (ImgplotArgs.cmap a)
       || isinstance_Colormap (ImgplotArgs.cmap a)))
  && (is_None (ImgplotArgs.ax a) || isinstance_Axes (ImgplotArgs.ax a))
  && isinstance_bool (ImgplotArgs.describe a).

(** One of the options that [imgplot] type-checks has a value of another
    type: a non-boolean [describe], [robust], [cbar], [showticks] or
    [despine]; a [cmap] that is neither [None], a string nor a colormap; an
    [orientation] that is not a string; a [cbar_label] that is neither
    [None] nor a string. *)
Definition ill_typed (a : ImgplotArgs.t) : Prop :=
  isinstance_bool (ImgplotArgs.describe a) = false \/
  isinstance_bool (ImgplotArgs.robust a) = false \/
  isinstance_bool (ImgplotArgs.cbar a) = false \/
  isinstance_bool (ImgplotArgs.showticks a) = false \/
  isinstance_bool (ImgplotArgs.despine a) = false \/
  (is_None (ImgplotArgs.cmap a) = false /\
   isinstance_str (ImgplotArgs.cmap a)
   || isinstance_Colormap (ImgplotArgs.cmap a) = false) \/
  isinstance_str (ImgplotArgs.orientation a) = false \/
  (is_None (ImgplotArgs.cbar_label a) = false /\
   isinstance_str (ImgplotArgs.cbar_label a) = false).

(** The keywords of a call that builds the image-setup helper satisfy [P];
    nothing is asked of the other calls. *)
Definition helper_gets (P : SetupImageArgs.t -> Prop) (c : call) : Prop :=
  match c with
  | SetupImage kw => P kw
  | _ => True
  end.

(** The call builds the image-setup helper, with keywords that satisfy [P]. *)
Definition builds_helper (P : SetupImageArgs.t -> Prop) (c : call) : Prop :=
  match c with
  | SetupImage kw => P kw
  | _ => False
  end.

(** No colorbar and no robust scaling are asked of the helper. *)
Definition flags_off (kw : SetupImageArgs.t) : Prop :=
  SetupImageArgs.cbar kw = VBool false /\
  SetupImageArgs.robust kw = VBool false.

(** [data] is an [ndarray] of exactly three dimensions. *)
Definition is_3d (d : pydata) : Prop :=
  exists arr, d = DNdarray arr /\ ndim arr = 3%nat.

(** The four spellings of the orientation that [imghist] accepts. *)
Definition orientations : list string :=
  ["v"; "vertical"; "h"; "horizontal"].

(** [bins] is [None] or an [int], as the signature documents it. *)
Definition bins_int_or_None (bins : pyval) : bool :=
  is_None bins || isinstance_int bins.

(** The [bins] keyword of a call to [hist] satisfies [P]; nothing is asked
    of the other calls. *)
Definition hist_gets (P : pyval -> Prop) (c : call) : Prop :=
  match c with
  | AxHist _ _ bins _ _ => P bins
  | _ => True
  end.

(** The call draws a density histogram with the given [bins]. *)
Definition draws_hist (bins : pyval) (c : call) : Prop :=
  match c with
  | AxHist _ _ bins' density _ => bins' = bins /\ density = true
  | _ => False
  end.

(** What [imghist] relies on in the answers it gets: the figure has a
    second axes, the colorbar's, once the image is drawn. *)
Definition has_colorbar_axes (c : call) : ret c -> Prop :=
  match c return ret c -> Prop with
  | FigAxes _ => fun fig_axes => (2 <= List.length fig_axes)%nat
  | _ => fun _ => True
  end.

(** The arguments of [imghist] other than [bins] are in order: the
    orientation is one of the four spellings, the options pass the checks
    of [imgplot], and [data] is an [ndarray]. *)
Definition image_options_valid (a : ImghistArgs.t) : Prop :=
  (exists s, In s orientations /\ ImghistArgs.orientation a = VStr s) /\
  (forall ax1 s, imgplot_checks (forwarded a ax1 (VStr s)) = Ok tt) /\
  (exists arr, ImghistArgs.data a = DNdarray arr).

(** ** Sample arguments *)

(** A 2 x 2 image and a 2 x 2 RGB image. *)
Definition img : pydata :=
  DNdarray {| shape := [2; 2]%nat;
              items := [FFin 1; FFin 2; FFin 3; FFin 4] |}.

Definition rgb_img : pydata :=
  DNdarray {| shape := [2; 2; 3]%nat;
              items := map (fun z => FFin (inject_Z z))
                         [10; 20; 30; 40; 50; 60; 70; 80; 90; 100; 110; 120]
           |}.

(** [imgplot(rgb_img, cbar=True, robust=True)] *)
Definition args_rgb : ImgplotArgs.t :=
  ImgplotArgs.with_robust (VBool true) (ImgplotArgs.defaults rgb_img).

(** [imgplot(img, robust=True, perc=(98, 2))] *)
Definition args_perc_98_2 : ImgplotArgs.t :=
  ImgplotArgs.with_robust (VBool true)
    (ImgplotArgs.with_perc (VTuple [VInt 98; VInt 2])
       (ImgplotArgs.defaults img)).

(** [imgplot(img, gray=True)] and [imgplot(img, gray=True, cmap="deep")] *)
Definition args_gray : ImgplotArgs.t :=
  ImgplotArgs.with_gray (VBool true) (ImgplotArgs.defaults img).

Definition args_gray_deep : ImgplotArgs.t :=
  ImgplotArgs.with_cmap (VStr "deep") args_gray.

(** [imgplot(img, gray="yes")] *)
Definition args_gray_yes : ImgplotArgs.t :=
  ImgplotArgs.with_gray (VStr "yes") (ImgplotArgs.defaults img).

(** [imgplot(img, cbar="yes")] *)
Definition args_cbar_yes : ImgplotArgs.t :=
  ImgplotArgs.with_cbar (VStr "yes") (ImgplotArgs.defaults img).

(** [imgplot(img, cbar="yes", robust=True, perc=(98, 2))] *)
Definition args_cbar_yes_perc_98_2 : ImgplotArgs.t :=
  ImgplotArgs.with_cbar (VStr "yes") args_perc_98_2.

(** [imgplot(img, cmap=5)] *)
Definition args_cmap_5 : ImgplotArgs.t :=
  ImgplotArgs.with_cmap (VInt 5) (ImgplotArgs.defaults img).

(** [imghist(img, cmap=5)] *)
Definition args_hist_cmap_5 : ImghistArgs.t :=
  ImghistArgs.with_cmap (VInt 5) (ImghistArgs.defaults img).

(** [imghist(img, orientation="diagonal")] *)
Definition args_diagonal : ImghistArgs.t :=
  ImghistArgs.with_orientation (VStr "diagonal") (ImghistArgs.defaults img).

(** [imghist(img, bins=150)], [imghist(img, bins=0)],
    [imghist(img, bins=-5)] *)
Definition args_bins_150 : ImghistArgs.t :=
  ImghistArgs.with_bins (VInt 150) (ImghistArgs.defaults img).

Definition args_bins_0 : ImghistArgs.t :=
  ImghistArgs.with_bins (VInt 0) (ImghistArgs.defaults img).

Definition args_bins_minus_5 : ImghistArgs.t :=
  ImghistArgs.with_bins (VInt (-5)) (ImghistArgs.defaults img).

(** [imghist(img, showticks=True)] *)
Definition args_showticks : ImghistArgs.t :=
  ImghistArgs.with_showticks (VBool true) (ImghistArgs.defaults img).

(** ** Further vocabulary: the checks *)

(** [perc] is a pair whose first element is less than its second: what the
    two assertions ask for. *)
Definition perc_ordered (perc : pyval) : Prop :=
  py_len perc = Ok 2%nat /\
  exists p0 p1,
    py_getitem perc 0 = Ok p0 /\ py_getitem perc 1 = Ok p1 /\
    py_lt p0 p1 = Ok true.

(** The options [imgplot] checks are all in order. *)
Definition accepted (a : ImgplotArgs.t) : Prop :=
  (is_None (ImgplotArgs.cmap a) = true \/
   isinstance_str (ImgplotArgs.cmap a) = true \/
   isinstance_Colormap (ImgplotArgs.cmap a) = true) /\
  (is_None (ImgplotArgs.ax a) = true \/
   isinstance_Axes (ImgplotArgs.ax a) = true) /\
  isinstance_bool (ImgplotArgs.describe a) = true /\
  isinstance_bool (ImgplotArgs.robust a) = true /\
  (ImgplotArgs.robust a = VBool true -> perc_ordered (ImgplotArgs.perc a)) /\
  isinstance_bool (ImgplotArgs.cbar a) = true /\
  isinstance_str (ImgplotArgs.orientation a) = true /\
  (is_None (ImgplotArgs.cbar_label a) = true \/
   isinstance_str (ImgplotArgs.cbar_label a) = true) /\
  isinstance_bool (ImgplotArgs.showticks a) = true /\
  isinstance_bool (ImgplotArgs.despine a) = true.

(** [perc] is a pair of numbers one of which is a NaN. *)
Definition perc_has_nan (perc : pyval) : Prop :=
  py_len perc = Ok 2%nat /\
  exists p0 p1 x y,
    py_getitem perc 0 = Ok p0 /\ py_getitem perc 1 = Ok p1 /\
    as_number p0 = Some x /\ as_number p1 = Some y /\
    (x = FNaN \/ y = FNaN).

(** [perc] is a pair whose elements [<] cannot order. *)
Definition perc_unorderable (perc : pyval) : Prop :=
  py_len perc = Ok 2%nat /\
  exists p0 p1 e,
    py_getitem perc 0 = Ok p0 /\ py_getitem perc 1 = Ok p1 /\
    py_lt p0 p1 = Err e.

(** [imgplot(img, robust=True, perc=(float("nan"), 98))] *)
Definition args_perc_nan : ImgplotArgs.t :=
  ImgplotArgs.with_robust (VBool true)
    (ImgplotArgs.with_perc (VTuple [VFloat FNaN; VInt 98])
       (ImgplotArgs.defaults img)).

(** [imgplot(img, robust=True, perc=(2, None))] *)
Definition args_perc_2_None : ImgplotArgs.t :=
  ImgplotArgs.with_robust (VBool true)
    (ImgplotArgs.with_perc (VTuple [VInt 2; VNone])
       (ImgplotArgs.defaults img)).

(** [imghist(img, bins=1.5)], [imghist(img, bins=True)] *)
Definition args_bins_float : ImghistArgs.t :=
  ImghistArgs.with_bins (VFloat (FFin (3 # 2))) (ImghistArgs.defaults img).

Definition args_bins_True : ImghistArgs.t :=
  ImghistArgs.with_bins (VBool true) (ImghistArgs.defaults img).

(** ** Further vocabulary: what flows through a program *)

(** Whatever the collaborators answer, the program returns values that
    satisfy [Q] only. *)
Fixpoint all_returns {R} (Q : R -> Prop) (p : prog R) : Prop :=
  match p with
  | Ret r => Q r
  | Raise _ => True
  | Call c k => forall x, all_returns Q (k x)
  end.

(** Whatever the collaborators answer, once a call [c] has been answered
    with [x], what is left of the program satisfies [P c x]. *)
Fixpoint after_answer {R} (P : forall c, ret c -> prog R -> Prop)
  (p : prog R) : Prop :=
  match p with
  | Ret _ => True
  | Raise _ => True
  | Call c k => forall x, P c x (k x) /\ after_answer P (k x)
  end.

(** Whatever the collaborators answer, the program makes the calls [tr],
    in this order, and returns. *)
Fixpoint makes_exactly {R} (tr : list call) (p : prog R) : Prop :=
  match p, tr with
  | Ret _, [] => True
  | Call c k, c' :: tr' => c = c' /\ forall x, makes_exactly tr' (k x)
  | _, _ => False
  end.

(** The keywords that [imgplot] never touches reach the helper as the
    caller gave them. *)
Definition keeps_keywords (a : ImgplotArgs.t) (kw : SetupImageArgs.t)
  : Prop :=
  SetupImageArgs.ax kw = ImgplotArgs.ax a /\
  SetupImageArgs.vmin kw = ImgplotArgs.vmin a /\
  SetupImageArgs.vmax kw = ImgplotArgs.vmax a /\
  SetupImageArgs.perc kw = ImgplotArgs.perc a /\
  SetupImageArgs.dx kw = ImgplotArgs.dx a /\
  SetupImageArgs.units kw = ImgplotArgs.units a /\
  SetupImageArgs.dimension kw = ImgplotArgs.dimension a /\
  SetupImageArgs.orientation kw = ImgplotArgs.orientation a /\
  SetupImageArgs.cbar_label kw = ImgplotArgs.cbar_label a /\
  SetupImageArgs.cbar_ticks kw = ImgplotArgs.cbar_ticks a /\
  SetupImageArgs.showticks kw = ImgplotArgs.showticks a /\
  SetupImageArgs.despine kw = ImgplotArgs.despine a.

(** [data], [cbar] and [robust] reach the helper as the caller gave
    them. *)
Definition keeps_image_and_flags (a : ImgplotArgs.t)
  (kw : SetupImageArgs.t) : Prop :=
  SetupImageArgs.data kw = ImgplotArgs.data a /\
  SetupImageArgs.cbar kw = ImgplotArgs.cbar a /\
  SetupImageArgs.robust kw = ImgplotArgs.robust a.

(** The call converts an image to grayscale. *)
Definition converts_to_gray (c : call) : Prop :=
  match c with
  | Rgb2gray _ => True
  | _ => False
  end.

(** The call computes or prints the description of the data. *)
Definition describes (c : call) : Prop :=
  match c with
  | SsDescribe _ | Print _ _ => True
  | _ => False
  end.

(** The statistics are computed over [x]; nothing is asked of the other
    calls. *)
Definition describe_gets (x : vec) (c : call) : Prop :=
  match c with
  | SsDescribe x' => x' = x
  | _ => True
  end.

(** The six lines [imgplot] prints of a description. *)
Definition description_lines (result : DescribeResult) : list call :=
  [Print "No. of Obs. : " (nobs result);
   Print "Min. Value : " (fst (minmax result));
   Print "Max. Value : " (snd (minmax result));
   Print "Mean : " (mean result);
   Print "Variance : " (variance result);
   Print "Skewness : " (skewness result)].

(** A nested list, as an image that is not an [ndarray]. *)
Definition list_img : pydata :=
  DOther (VList [VList [VInt 1; VInt 2]; VList [VInt 3; VInt 4]]).

(** [imgplot(rgb_img, gray=True)] *)
Definition args_rgb_gray : ImgplotArgs.t :=
  ImgplotArgs.with_gray (VBool true) (ImgplotArgs.defaults rgb_img).

(** [imgplot(img, describe=False)] *)
Definition args_no_describe : ImgplotArgs.t :=
  ImgplotArgs.with_describe (VBool false) (ImgplotArgs.defaults img).

(** [imgplot(list_img)] and [imgplot(list_img, describe=False)] *)
Definition args_list : ImgplotArgs.t := ImgplotArgs.defaults list_img.

Definition args_list_no_describe : ImgplotArgs.t :=
  ImgplotArgs.with_describe (VBool false) (ImgplotArgs.defaults list_img).

(** The call draws the image. *)
Definition plots_image (c : call) : Prop :=
  match c with
  | SetupImage_plot _ => True
  | _ => False
  end.

(** What is left after the helper's [plot] has answered returns the axes
    of that answer. *)
Definition returns_plotted_axes (c : call) : ret c -> prog axes -> Prop :=
  match c return ret c -> prog axes -> Prop with
  | SetupImage_plot _ =>
      fun answer rest => all_returns (fun r => r = snd (fst answer)) rest
  | _ => fun _ _ => True
  end.

(** What is left after the helper has been built describes the data the
    helper was given; what is left after [ss.describe] has answered prints
    the six lines of that answer and returns. *)
Definition describes_plotted_data (c : call) : ret c -> prog axes -> Prop :=
  match c return ret c -> prog axes -> Prop with
  | SetupImage kw =>
      fun _ rest =>
        all_calls
          (fun c' =>
             match c' with
             | SsDescribe x => flatten (SetupImageArgs.data kw) = Ok x
             | _ => True
             end) rest
  | SsDescribe _ =>
      fun result rest => makes_exactly (description_lines result) rest
  | _ => fun _ _ => True
  end.

(** The call computes the description of the data. *)
Definition computes_description (c : call) : Prop :=
  match c with
  | SsDescribe _ => True
  | _ => False
  end.

(** No condition on the answers of the collaborators. *)
Definition any_answer (c : call) (x : ret c) : Prop := True.

(** [imghist(list_img)] *)
Definition args_hist_list : ImghistArgs.t := ImghistArgs.defaults list_img.

(** ** Further vocabulary: the panels of [imghist] *)

Definition is_IndexError (e : exn) : bool :=
  match e with
  | IndexError => true
  | _ => false
  end.

(** What is left after [f.axes] has answered: with fewer than two axes,
    nothing but the [IndexError] of [f.axes[1]]; with two or more, nothing
    that raises an [IndexError]. *)
Definition needs_colorbar_axes (c : call) : ret c -> prog figure -> Prop :=
  match c return ret c -> prog figure -> Prop with
  | FigAxes _ =>
      fun fig_axes rest =>
        ((List.length fig_axes < 2)%nat -> rest = Raise IndexError) /\
        ((2 <= List.length fig_axes)%nat -> never_raises is_IndexError rest)
  | _ => fun _ _ => True
  end.




(** The call draws on, or changes, the axes [ax2]. *)
Definition on_panel (ax2 : axes) (c : call) : Prop :=
  match c with
  | AxHist ax _ _ _ _ => ax = ax2
  | AxisSetVisible ax _ _ => ax = ax2
  | SetFrameOn ax _ => ax = ax2
  | _ => True
  end.

(** [imghist(img, orientation="h")] *)
Definition args_hist_h : ImghistArgs.t :=
  ImghistArgs.with_orientation (VStr "h") (ImghistArgs.defaults img).

(** ** Further vocabulary: the colours of the bars *)

(** A colour is computed with the colormap [cm]. *)
Definition colours_with (cm : colormap) (c : call) : Prop :=
  match c with
  | CmCall cm' _ => cm' = cm
  | _ => True
  end.

(** The calls of the colouring loop for the pairs [l], [colors] being what
    the colormap answers. *)
Fixpoint coloring (cm : colormap) (l : list (pyfloat * patch))
  (colors : list rgba) : list call :=
  match l, colors with
  | (c, p) :: l', color :: colors' =>
      CmCall cm c :: PltSetp p "facecolor" color :: coloring cm l' colors'
  | _, _ => []
  end.

(** [imghist(img, cmap="deep")] *)
Definition args_hist_deep : ImghistArgs.t :=
  ImghistArgs.with_cmap (VStr "deep") (ImghistArgs.defaults img).

(** The three calls by which [imghist] sets the figure up before it draws
    the image. *)
Definition is_figure_setup (tr : list call) : Prop :=
  exists figsize nrows ncols ratios f gs,
    tr = [PltFigure figsize; GridSpec nrows ncols ratios f;
          AddSubplot f gs 0 None].

(** The image and the options of [imghist] reach the helper as the caller
    gave them. *)
Definition forwards_options (a : ImghistArgs.t) (kw : SetupImageArgs.t)
  : Prop :=
  SetupImageArgs.data kw = ImghistArgs.data a /\
  SetupImageArgs.cmap kw = ImghistArgs.cmap a /\
  SetupImageArgs.vmin kw = ImghistArgs.vmin a /\
  SetupImageArgs.vmax kw = ImghistArgs.vmax a /\
  SetupImageArgs.perc kw = ImghistArgs.perc a /\
  SetupImageArgs.dx kw = ImghistArgs.dx a /\
  SetupImageArgs.units kw = ImghistArgs.units a /\
  SetupImageArgs.dimension kw = ImghistArgs.dimension a /\
  SetupImageArgs.cbar_label kw = ImghistArgs.cbar_label a /\
  SetupImageArgs.cbar_ticks kw = ImghistArgs.cbar_ticks a /\
  SetupImageArgs.showticks kw = ImghistArgs.showticks a /\
  SetupImageArgs.despine kw = ImghistArgs.despine a.

(** [cbar] and [robust] of [imghist] reach the helper as the caller gave
    them. *)
Definition forwards_flags (a : ImghistArgs.t) (kw : SetupImageArgs.t)
  : Prop :=
  SetupImageArgs.cbar kw = ImghistArgs.cbar a /\
  SetupImageArgs.robust kw = ImghistArgs.robust a.

(** ** Further vocabulary: runs with their answers *)

(** A call together with the answer it got. *)
Definition event : Type := {c : call & ret c}.

Definition ev (c : call) (x : ret c) : event := existT ret c x.

Definition call_of (e : event) : call := projT1 e.

(** For some answers of the collaborators the program makes the calls of
    [h], in this order, gets the answers of [h] to them, and then ends in
    [o]: it returns a value or raises an exception itself. *)
Fixpoint history {R} (p : prog R) (h : list event) (o : result R) : Prop :=
  match p with
  | Ret r => h = [] /\ o = Ok r
  | Raise e => h = [] /\ o = Err e
  | Call c k => exists x h', h = ev c x :: h' /\ history (k x) h' o
  end.

(** Whatever the collaborators answer, the answered calls of the run and
    what it ends in satisfy [Q]. *)
Fixpoint every_run {R} (p : prog R) (Q : list event -> result R -> Prop)
  : Prop :=
  match p with
  | Ret r => Q [] (Ok r)
  | Raise e => Q [] (Err e)
  | Call c k => forall x, every_run (k x) (fun h o => Q (ev c x :: h) o)
  end.

(** The answered calls of the run of [p] against given collaborators, and
    what the run ends in when they all answer. *)
Fixpoint record {W R} (h : handler W) (p : prog R) (w : W)
  : list event * result R :=
  match p with
  | Ret r => ([], Ok r)
  | Raise e => ([], Err e)
  | Call c k =>
      match h c w with
      | (w', Ok x) =>
          let '(evs, o) := record h (k x) w' in (ev c x :: evs, o)
      | (_, Err e) => ([], Err e)
      end
  end.

(** The events of [h] whose calls are of the kind [sel], in the order of
    [h]. *)
Fixpoint events_of (sel : call -> bool) (h : list event) : list event :=
  match h with
  | [] => []
  | e :: h' =>
      if sel (call_of e) then e :: events_of sel h' else events_of sel h'
  end.

(** The events of the colouring loop for the pairs [l], [colors] being
    what the colormap answers. *)
Fixpoint coloring_events (cm : colormap) (l : list (pyfloat * patch))
  (colors : list rgba) : list event :=
  match l, colors with
  | (c, p) :: l', color :: colors' =>
      ev (CmCall cm c) color :: ev (PltSetp p "facecolor" color) tt
        :: coloring_events cm l' colors'
  | _, _ => []
  end.

(** The kinds of calls the statements single out. *)
Definition adds_subplot (c : call) : bool :=
  match c with
  | AddSubplot _ _ _ _ => true
  | _ => false
  end.

Definition draws_histogram (c : call) : bool :=
  match c with
  | AxHist _ _ _ _ _ => true
  | _ => false
  end.

(** [set_visible] of an axis and [set_frame_on], of any axes. *)
Definition changes_look (c : call) : bool :=
  match c with
  | AxisSetVisible _ _ _ | SetFrameOn _ _ => true
  | _ => false
  end.

(** The figure, its grid, its subplots and the histogram. *)
Definition lays_out (c : call) : bool :=
  match c with
  | PltFigure _ | GridSpec _ _ _ _ | AddSubplot _ _ _ _
  | AxHist _ _ _ _ _ => true
  | _ => false
  end.

(** The subplots, the look at [f.axes] and the histogram. *)
Definition builds_panels (c : call) : bool :=
  match c with
  | AddSubplot _ _ _ _ | FigAxes _ | AxHist _ _ _ _ _ => true
  | _ => false
  end.

(** Every way in which a colormap is looked up. *)
Definition looks_up_colormap (c : call) : bool :=
  match c with
  | GetCmap | CmapQualContains _ | CmapQualGet _ | PltCmGetCmap _ => true
  | _ => false
  end.

(** The histogram, the arithmetic on its edges and the colouring of its
    bars. *)
Definition colours_bars (c : call) : bool :=
  match c with
  | AxHist _ _ _ _ _ | NpAdd _ _ | NpMin _ | NpSub _ _ | NpMax _
  | NpIDiv _ _ | CmCall _ _ | PltSetp _ _ _ => true
  | _ => false
  end.

(** A value of one of Python's built-in types: [None], a boolean, a
    number, a string, a tuple or a list.  None of these has a [flatten] or
    a [ravel] method. *)
Definition builtin (v : pyval) : bool :=
  match v with
  | VNone | VBool _ | VInt _ | VFloat _ | VStr _ | VTuple _ | VList _ => true
  | _ => false
  end.

(** Neither a tuple nor a list. *)
Definition scalar (v : pyval) : bool :=
  match v with
  | VTuple _ | VList _ => false
  | _ => true
  end.

(** The elements of [perc] are not sequences themselves: comparing them
    compares no elements of theirs. *)
Definition perc_of_scalars (perc : pyval) : Prop :=
  forall i x, py_getitem perc i = Ok x -> scalar x = true.

(** [imgplot(img, robust=True)] *)
Definition args_robust : ImgplotArgs.t :=
  ImgplotArgs.with_robust (VBool true) (ImgplotArgs.defaults img).

(** * Properties *)

(** ** Comparisons *)

Lemma Ok_inj {A} (x y : A) : Ok x = Ok y -> x = y.
Proof. congruence. Qed.

Lemma op_ge_not_lt c : op_holds OpGe c = true -> op_holds OpLt c = false.
Proof. destruct c as [[]|]; simpl; congruence. Qed.

(** How the comparison of two tuples, or of two lists, proceeds. *)
Lemma py_richcmp_tuple op l m :
  py_richcmp op (VTuple l) (VTuple m) =
  match l, m with
  | x :: l', y :: m' =>
      if py_eq x y then py_richcmp op (VTuple l') (VTuple m')
      else py_richcmp op x y
  | _, _ => Ok (op_holds op (Some (Nat.compare (length l) (length m))))
  end.
Proof. destruct l, m; reflexivity. Qed.

Lemma py_richcmp_list op l m :
  py_richcmp op (VList l) (VList m) =
  match l, m with
  | x :: l', y :: m' =>
      if py_eq x y then py_richcmp op (VList l') (VList m')
      else py_richcmp op x y
  | _, _ => Ok (op_holds op (Some (Nat.compare (length l) (length m))))
  end.
Proof. destruct l, m; reflexivity. Qed.

(** The lexicographic step shared by tuples and lists. *)
Ltac lexicographic H Hge unfolding closing :=
  let x := fresh "x" in
  let l := fresh "l" in
  let y := fresh "y" in
  let m := fresh "m" in
  let IH := fresh "IH" in
  induction H as [|x l ? ? IH]; intros m Hge;
  rewrite unfolding in *;
  [ closing
  | destruct m as [|y m]; [ closing | destruct (py_eq x y); auto ] ].

(** Where [a >= b] holds, [a < b] does not. *)
Lemma py_ge_not_lt a : forall b, py_ge a b = Ok true -> py_lt a b = Ok false.
Proof.
  unfold py_ge, py_lt.
  induction a as [ | | | | |l H|l H| | | ] using pyval_nested_ind;
    intros b0 Hge.
  all: try (destruct b0;
            cbn -[op_holds float_compare String.compare] in Hge |- *;
            try discriminate;
            apply Ok_inj in Hge; rewrite (op_ge_not_lt _ Hge); reflexivity).
  - destruct b0 as [ |?|?|?|?|m0|m0|?|?|?]; try (simpl in Hge; discriminate).
    revert m0 Hge.
    lexicographic H Hge py_richcmp_tuple
      ltac:(apply Ok_inj in Hge; now rewrite (op_ge_not_lt _ Hge)).
  - destruct b0 as [ |?|?|?|?|m0|m0|?|?|?]; try (simpl in Hge; discriminate).
    revert m0 Hge.
    lexicographic H Hge py_richcmp_list
      ltac:(apply Ok_inj in Hge; now rewrite (op_ge_not_lt _ Hge)).
Qed.

(** An ordering test fails with a [TypeError] only. *)
Lemma py_richcmp_err op a : forall b e, py_richcmp op a b = Err e -> e = TypeError.
Proof.
  induction a as [ | | | | |l H|l H| | | ] using pyval_nested_ind;
    intros b0 e He.
  all: try (destruct b0;
            cbn -[op_holds float_compare String.compare] in He;
            congruence).
  - destruct b0 as [ |?|?|?|?|m0|m0|?|?|?]; try (simpl in He; congruence).
    revert m0 He.
    lexicographic H He py_richcmp_tuple ltac:(discriminate); eauto.
  - destruct b0 as [ |?|?|?|?|m0|m0|?|?|?]; try (simpl in He; congruence).
    revert m0 He.
    lexicographic H He py_richcmp_list ltac:(discriminate); eauto.
Qed.

(** Equality with a string holds for that string only. *)
Lemma py_eq_str v s : py_eq v (VStr s) = true <-> v = VStr s.
Proof.
  split.
  - destruct v; simpl; try discriminate.
    intros H. apply String.eqb_eq in H. now subst.
  - intros ->. simpl. apply String.eqb_refl.
Qed.

Lemma is_True_spec v : is_True v = true <-> v = VBool true.
Proof.
  split; [|now intros ->].
  destruct v as [ |[]| | | | | | | | ]; simpl; congruence.
Qed.

(** ** Sequences *)

Lemma string_get_lt s : forall i, (i < String.length s)%nat ->
  exists c, String.get i s = Some c.
Proof.
  induction s as [|c s IH]; simpl; intros i Hi; [lia|].
  destruct i as [|i]; [eauto|]. apply IH. lia.
Qed.

(** Indexing below the length succeeds. *)
Lemma py_getitem_lt v n i :
  py_len v = Ok n -> (i < n)%nat -> exists x, py_getitem v i = Ok x.
Proof.
  destruct v; simpl; try discriminate; intros Hn Hi; apply Ok_inj in Hn; subst n.
  - destruct (string_get_lt s i Hi) as [c ->]. eauto.
  - destruct (nth_error l i) eqn:E; [eauto|].
    apply nth_error_None in E. lia.
  - destruct (nth_error l i) eqn:E; [eauto|].
    apply nth_error_None in E. lia.
Qed.

Lemma py_len_err v e : py_len v = Err e -> e = TypeError.
Proof. destruct v; simpl; congruence. Qed.

(** ** Programs *)

Section ProgLemmas.
Context {A B : Type}.
Implicit Types (p : prog A) (f : A -> prog B).

Lemma all_calls_bind P p f :
  all_calls P p -> (forall x, all_calls P (f x)) -> all_calls P (bind p f).
Proof.
  intros Hp Hf. induction p as [r|e|c k IH]; simpl in *; auto.
  destruct Hp as [Hc Hk]. split; auto.
Qed.

Lemma always_calls_bind_l P p f :
  always_calls P p -> always_calls P (bind p f).
Proof.
  induction p as [r|e|c k IH]; simpl; intros Hp; auto; [easy|].
  destruct Hp as [Hc|Hk]; auto.
Qed.

Lemma always_calls_bind_r P p f :
  (forall x, always_calls P (f x)) -> always_calls P (bind p f).
Proof. intros Hf. induction p as [r|e|c k IH]; simpl; auto. Qed.

Lemma never_raises_bind V p f :
  never_raises V p -> (forall x, never_raises V (f x)) ->
  never_raises V (bind p f).
Proof. intros Hp Hf. induction p as [r|e|c k IH]; simpl in *; auto. Qed.

Lemma completes_bind ok p f :
  completes ok p -> (forall x, completes ok (f x)) ->
  completes ok (bind p f).
Proof. intros Hp Hf. induction p as [r|e|c k IH]; simpl in *; auto. Qed.

(** A raise of [bind p f] is a raise of [p], or a raise of [f] after [p]
    has returned. *)
Lemma raises_after_bind p f tr e :
  raises_after (bind p f) tr e ->
  raises_after p tr e \/
  exists tr1 tr2 x,
    tr = (tr1 ++ tr2)%list /\ returns_after p tr1 x /\ raises_after (f x) tr2 e.
Proof.
  revert tr. induction p as [r|e'|c k IH]; simpl; intros tr H.
  - right. exists [], tr, r. auto.
  - auto.
  - destruct H as (x & tr' & -> & H).
    destruct (IH x tr' H) as [H1|(tr1 & tr2 & y & -> & H1 & H2)].
    + left. eauto.
    + right. exists (c :: tr1), tr2, y. simpl. eauto 10.
Qed.
End ProgLemmas.

Section TraceLemmas.
Context {R : Type}.
Implicit Types (p : prog R).

(** What holds of every possible call holds of the calls made. *)
Lemma all_calls_returns P p tr r :
  all_calls P p -> returns_after p tr r -> Forall P tr.
Proof.
  revert tr. induction p as [r'|e|c k IH]; simpl; intros tr Hp H.
  - destruct H as [-> _]. constructor.
  - easy.
  - destruct Hp as [Hc Hk]. destruct H as (x & tr' & -> & H).
    constructor; eauto.
Qed.

Lemma always_calls_returns P p tr r :
  always_calls P p -> returns_after p tr r -> Exists P tr.
Proof.
  revert tr. induction p as [r'|e|c k IH]; simpl; intros tr Hp H.
  - easy.
  - easy.
  - destruct H as (x & tr' & -> & H).
    destruct Hp as [Hc|Hk]; [now left|right; eauto].
Qed.

Lemma never_raises_sound V p tr e :
  never_raises V p -> raises_after p tr e -> V e = false.
Proof.
  revert tr. induction p as [r'|e'|c k IH]; simpl; intros tr Hp H.
  - easy.
  - destruct H as [_ <-]. exact Hp.
  - destruct H as (x & tr' & -> & H). eauto.
Qed.

(** A run that ends in a value exhibits a returning execution. *)
Lemma run_returns {W} (h : handler W) p w w' tr r :
  run h p w = (w', tr, Ok r) -> returns_after p tr r.
Proof.
  revert w tr. induction p as [r'|e|c k IH]; simpl; intros w tr H.
  - inversion H; subst; auto.
  - inversion H.
  - destruct (h c w) as [w1 [x|e]]; [|inversion H].
    destruct (run h (k x) w1) as [[w2 tr2] r2] eqn:E.
    inversion H; subst. exists x, tr2. split; [reflexivity|]. eauto.
Qed.

(** A run in which every collaborator answers and that ends in an
    exception exhibits a raise of the program's own. *)
Lemma run_raises {W} (h : handler W) p w w' tr e :
  answers h p w = true -> run h p w = (w', tr, Err e) ->
  raises_after p tr e.
Proof.
  revert w tr. induction p as [r'|e'|c k IH]; simpl; intros w tr Ha H.
  - inversion H.
  - inversion H; subst; auto.
  - destruct (h c w) as [w1 [x|e1]]; [|discriminate].
    destruct (run h (k x) w1) as [[w2 tr2] r2] eqn:E.
    inversion H; subst. exists x, tr2. split; [reflexivity|]. eauto.
Qed.
End TraceLemmas.

(** ** The checks of [imgplot] *)

(** A failed check is all that [imgplot] does. *)
Lemma imgplot_raises a e : imgplot_checks a = Err e -> imgplot a = Raise e.
Proof. destruct a. unfold imgplot. now intros ->. Qed.

Lemma perc_asserts_unordered perc :
  perc_unordered perc -> perc_asserts perc = Err AssertionError.
Proof.
  intros (Hlen & p0 & p1 & H0 & H1 & Hge). unfold perc_asserts.
  rewrite Hlen; simpl. rewrite H0, H1; simpl.
  now rewrite (py_ge_not_lt _ _ Hge).
Qed.

Lemma perc_asserts_wrong_length perc :
  perc_wrong_length perc -> perc_asserts perc = Err AssertionError.
Proof.
  intros (n & Hlen & Hn). unfold perc_asserts. rewrite Hlen; simpl.
  apply Nat.eqb_neq in Hn. now rewrite Hn.
Qed.

(** The check on [perc] fails with an [AssertionError], or with the
    [TypeError] of [len] or [<]. *)
Lemma perc_asserts_err perc e :
  perc_asserts perc = Err e -> e = TypeError \/ e = AssertionError.
Proof.
  unfold perc_asserts.
  destruct (py_len perc) as [n|e1] eqn:Hlen; simpl.
  2: { intros H. left. apply py_len_err in Hlen. congruence. }
  destruct (Nat.eqb n 2) eqn:Hn; simpl; [|right; congruence].
  apply Nat.eqb_eq in Hn; subst n.
  destruct (py_getitem_lt perc 2 0 Hlen) as [p0 ->]; [lia|].
  destruct (py_getitem_lt perc 2 1 Hlen) as [p1 ->]; [lia|]. simpl.
  destruct (py_lt p0 p1) as [[]|e1] eqn:Hlt; simpl; try congruence.
  - right; congruence.
  - apply py_richcmp_err in Hlt. left; congruence.
Qed.

(** One check of the sequence at a time. *)
Ltac case_check :=
  match goal with
  | |- context [if is_True ?r then _ else _] =>
      destruct (is_True r) eqn:?
  | |- context [rbind (perc_asserts ?p) _] =>
      let e := fresh "e" in
      let Hp := fresh "Hperc" in
      destruct (perc_asserts p) as [[]|e] eqn:Hp
  | |- context [raise_if (negb ?b) _] =>
      destruct b eqn:?
  | |- context [if negb (is_None ?v) then _ else _] =>
      destruct (is_None v) eqn:?
  end;
  cbn [raise_if negb rbind].

Lemma imgplot_checks_ill_typed a :
  ill_typed a ->
  imgplot_checks a = Err TypeError \/
  (imgplot_checks a = Err AssertionError /\
   ImgplotArgs.robust a = VBool true /\
   perc_asserts (ImgplotArgs.perc a) = Err AssertionError).
Proof.
  destruct a. unfold ill_typed, imgplot_checks. cbn [ImgplotArgs.describe
    ImgplotArgs.robust ImgplotArgs.cbar ImgplotArgs.showticks
    ImgplotArgs.despine ImgplotArgs.cmap ImgplotArgs.orientation
    ImgplotArgs.cbar_label ImgplotArgs.perc].
  intros H.
  repeat case_check; auto.
  all: try (exfalso; intuition congruence).
  all: match goal with
       | Hp : perc_asserts _ = Err _ |- _ =>
           destruct (perc_asserts_err _ _ Hp) as [->| ->]; auto
       end.
  all: right; repeat split; auto; now apply is_True_spec.
Qed.

(** ** Robust scaling and the percentile pair *)

Lemma imgplot_checks_bad_perc a :
  ImgplotArgs.robust a = VBool true ->
  perc_asserts (ImgplotArgs.perc a) = Err AssertionError ->
  (typed_before_perc a = true /\ imgplot_checks a = Err AssertionError) \/
  (typed_before_perc a = false /\ imgplot_checks a = Err TypeError).
Proof.
  destruct a. unfold typed_before_perc, imgplot_checks.
  cbn [ImgplotArgs.robust ImgplotArgs.perc ImgplotArgs.cmap ImgplotArgs.ax
       ImgplotArgs.describe].
  intros -> Hperc. cbn [is_True isinstance_bool]. rewrite Hperc.
  repeat case_check; cbn [orb andb]; auto.
Qed.

(** C4: with [robust=True], a [perc] pair with [perc[0] >= perc[1]], and
    likewise a [perc] whose length is not 2, makes [imgplot] raise before it
    calls anything; the exception is the [AssertionError] of the check on
    [perc], unless one of the three checks that come first ([cmap], [ax],
    [describe]) already fails, with a [TypeError]. *)
Theorem C4_robust_bad_perc_raises (a : ImgplotArgs.t) :
  ImgplotArgs.robust a = VBool true ->
  perc_unordered (ImgplotArgs.perc a) \/
  perc_wrong_length (ImgplotArgs.perc a) ->
  exists e,
    imgplot a = Raise e /\
    is_validation e = true /\
    (typed_before_perc a = true -> e = AssertionError).
Proof.
  intros Hrobust Hperc.
  assert (Hassert : perc_asserts (ImgplotArgs.perc a) = Err AssertionError).
  { destruct Hperc as [H|H];
      [apply perc_asserts_unordered | apply perc_asserts_wrong_length];
      exact H. }
  destruct (imgplot_checks_bad_perc a Hrobust Hassert) as [[Ht Hc]|[Ht Hc]].
  - exists AssertionError. split; [now apply imgplot_raises|]. auto.
  - exists TypeError. split; [now apply imgplot_raises|].
    split; [reflexivity|]. congruence.
Qed.

Lemma C4_witness :
  ImgplotArgs.robust args_perc_98_2 = VBool true /\
  perc_unordered (ImgplotArgs.perc args_perc_98_2) /\
  exists e,
    imgplot args_perc_98_2 = Raise e /\
    is_validation e = true /\
    (typed_before_perc args_perc_98_2 = true -> e = AssertionError).
Proof.
  assert (Hperc : perc_unordered (ImgplotArgs.perc args_perc_98_2)).
  { split; [reflexivity|].
    exists (VInt 98), (VInt 2). repeat split; reflexivity. }
  split; [reflexivity|]. split; [exact Hperc|].
  apply (C4_robust_bad_perc_raises args_perc_98_2);
    [reflexivity | left; exact Hperc].
Defined.

(** C10: with [robust=False] the checks never look at [perc]: whatever is
    passed for it, they end the same way. *)
Theorem C10_perc_ignored_without_robust (a : ImgplotArgs.t) (p : pyval) :
  ImgplotArgs.robust a = VBool false ->
  imgplot_checks (ImgplotArgs.with_perc p a) = imgplot_checks a.
Proof. destruct a. cbn. now intros ->. Qed.

Lemma C10_witness :
  ImgplotArgs.robust (ImgplotArgs.defaults img) = VBool false /\
  imgplot_checks
    (ImgplotArgs.with_perc (VTuple [VInt 98; VStr "low"; VNone])
       (ImgplotArgs.defaults img))
  = imgplot_checks (ImgplotArgs.defaults img).
Proof.
  split; [reflexivity|].
  apply (C10_perc_ignored_without_robust (ImgplotArgs.defaults img));
    reflexivity.
Defined.

(** ** The grayscale flag *)

(** C9: [gray] is not type-checked.  With a non-boolean [gray] the checks
    of [imgplot] end as they do with [gray=None], and so does the whole
    call: the value is only ever compared with [True]. *)
Theorem C9_gray_not_type_checked (a : ImgplotArgs.t) (v : pyval) :
  isinstance_bool v = false ->
  imgplot_checks (ImgplotArgs.with_gray v a)
  = imgplot_checks (ImgplotArgs.with_gray VNone a) /\
  imgplot (ImgplotArgs.with_gray v a)
  = imgplot (ImgplotArgs.with_gray VNone a).
Proof.
  intros Hv. split; [now destruct a|].
  assert (Ht : is_True v = false) by (destruct v; simpl in *; congruence).
  destruct a. unfold imgplot. cbn. rewrite Ht. reflexivity.
Qed.

Lemma C9_witness :
  isinstance_bool (VStr "yes") = false /\
  imgplot_checks args_gray_yes = Ok tt /\
  imgplot args_gray_yes = imgplot (ImgplotArgs.defaults img).
Proof.
  split; [reflexivity|]. split; [reflexivity|].
  apply (C9_gray_not_type_checked (ImgplotArgs.defaults img) (VStr "yes")).
  reflexivity.
Defined.

(** ** Type errors *)

(** C5, as the code has it: a value of the wrong type for [describe],
    [robust], [cbar], [showticks], [despine], [cmap], [orientation] or
    [cbar_label] makes [imgplot] raise before it calls anything.  The
    exception is a [TypeError], except that with [robust=True] a failed
    assertion on [perc] comes before the type checks of [cbar],
    [orientation], [cbar_label], [showticks] and [despine].  [gray] is not
    among the checked options. *)
Theorem C5_ill_typed_raises (a : ImgplotArgs.t) :
  ill_typed a ->
  imgplot a = Raise TypeError \/
  (imgplot a = Raise AssertionError /\
   ImgplotArgs.robust a = VBool true /\
   perc_asserts (ImgplotArgs.perc a) = Err AssertionError).
Proof.
  intros H.
  destruct (imgplot_checks_ill_typed a H) as [Hc|(Hc & Hr & Hp)].
  - left. now apply imgplot_raises.
  - right. split; [now apply imgplot_raises|]. auto.
Qed.

Lemma C5_witness :
  ill_typed args_cbar_yes /\ imgplot args_cbar_yes = Raise TypeError.
Proof.
  assert (H : ill_typed args_cbar_yes).
  { right; right; left. reflexivity. }
  split; [exact H|].
  destruct (C5_ill_typed_raises args_cbar_yes H) as [Ht|(_ & Hr & _)].
  - exact Ht.
  - discriminate Hr.
Defined.

(** C5 fails for [gray]: [imgplot(img, gray="yes")] passes every check and
    goes on to build the helper. *)
Lemma C5_counterexample :
  isinstance_bool (ImgplotArgs.gray args_gray_yes) = false /\
  imgplot_checks args_gray_yes = Ok tt /\
  imgplot args_gray_yes <> Raise TypeError.
Proof.
  split; [reflexivity|]. split; [reflexivity|].
  intros H. discriminate H.
Qed.

(** The type check of [cbar] is not reached when the assertion on [perc]
    fails first. *)
Example cbar_yes_after_bad_perc :
  ill_typed args_cbar_yes_perc_98_2 /\
  imgplot args_cbar_yes_perc_98_2 = Raise AssertionError.
Proof. split; [right; right; left|]; reflexivity. Qed.

(** ** What the helper is given *)

Lemma color_patches_calls (P : call -> Prop) cm l :
  (forall c, P (CmCall cm c)) ->
  (forall p v, P (PltSetp p "facecolor" v)) ->
  all_calls P (color_patches cm l).
Proof.
  intros Hcm Hsetp. induction l as [|[c p] l IH]; simpl; auto.
Qed.

Lemma color_patches_never_raises V cm l :
  never_raises V (color_patches cm l).
Proof. induction l as [|[c p] l IH]; simpl; auto. Qed.

Lemma color_patches_completes ok cm l :
  completes ok (color_patches cm l).
Proof. induction l as [|[c p] l IH]; simpl; auto. Qed.

#[local] Arguments imgplot : simpl never.
#[local] Arguments color_patches : simpl never.
#[local] Arguments imgplot_checks : simpl never.
#[local] Arguments imghist_bins : simpl never.
#[local] Arguments Qmult : simpl never.
#[local] Arguments Qminus : simpl never.

(** The part of a program that runs first. *)
Ltac first_part p :=
  lazymatch p with
  | bind ?q _ => first_part q
  | _ => p
  end.

(** What a nest of case distinctions looks at first. *)
Ltac scrutinee t :=
  lazymatch t with
  | match ?x with _ => _ end => scrutinee x
  | _ => t
  end.

(** Going through a program call by call: take the next call with any
    answer to it and, at a test, either side.  [inner] deals with a whole
    function that is called in between. *)
Ltac walk_program p inner :=
  let h := first_part p in
  lazymatch h with
  | lift (flatten ?d) => destruct d
  | lift (ravel ?d) => destruct d
  | lift ?r => let s := scrutinee r in destruct s eqn:?
  | (match ?x with _ => _ end) => let s := scrutinee x in destruct s eqn:?
  | _ => inner
  end.

Ltac walk inner :=
  repeat first
    [ exact I
    | progress cbn
    | match goal with
      | |- _ /\ _ => split
      | |- _ \/ _ => first [left; solve [eauto] | right]
      | |- forall _, _ => intro
      | |- _ = _ => first [reflexivity | assumption]
      | |- False => solve [cbn in *; lia]
      | |- all_calls _ ?p => walk_program p inner
      | |- never_raises _ ?p => walk_program p inner
      | |- completes _ ?p => walk_program p inner
      | |- always_calls _ ?p => walk_program p inner
      end ].

Lemma imgplot_rgb_flags_off a :
  is_3d (ImgplotArgs.data a) ->
  all_calls (helper_gets flags_off) (imgplot a).
Proof.
  destruct a. cbn [ImgplotArgs.data]. intros (arr & -> & Hdim).
  unfold imgplot, flags_off. rewrite Hdim.
  walk fail.
Qed.

Lemma imghist_rgb_flags_off a :
  is_3d (ImghistArgs.data a) ->
  all_calls (helper_gets flags_off) (imghist a).
Proof.
  destruct a. cbn [ImghistArgs.data]. intros Hdata.
  unfold imghist.
  walk ltac:(
    first [ apply all_calls_bind; [now apply imgplot_rgb_flags_off|]
          | apply all_calls_bind; [now apply color_patches_calls|] ]).
Qed.

(** C1: for an [ndarray] of exactly three dimensions, every call that
    builds the image-setup helper, in [imgplot] and in the image panel of
    [imghist], has [cbar=False] and [robust=False], whatever the caller
    passed for the two. *)
Theorem C1_rgb_forces_cbar_and_robust_off (d : pydata) :
  is_3d d ->
  (forall a, ImgplotArgs.data a = d ->
     all_calls (helper_gets flags_off) (imgplot a)) /\
  (forall a, ImghistArgs.data a = d ->
     all_calls (helper_gets flags_off) (imghist a)).
Proof.
  intros Hd. split; intros a Ha.
  - apply imgplot_rgb_flags_off. now rewrite Ha.
  - apply imghist_rgb_flags_off. now rewrite Ha.
Qed.

(** When the checks pass, the helper is built: what holds of every call
    that builds it holds of one that is made. *)
Lemma imgplot_builds_helper Q a :
  imgplot_checks a = Ok tt ->
  all_calls (helper_gets Q) (imgplot a) ->
  some_call (builds_helper Q) (imgplot a).
Proof.
  destruct a. unfold imgplot. intros ->. cbn [lift bind].
  destruct data as [arr|v]; [destruct (Nat.eqb (ndim arr) 3)|];
    [destruct (is_True gray)| |]; cbn.
  - intros [_ H]. right. exists arr. left. apply (H arr).
  - intros [H _]. now left.
  - intros [H _]. now left.
  - intros [H _]. now left.
Qed.

Lemma C1_witness :
  is_3d rgb_img /\
  ImgplotArgs.cbar args_rgb = VBool true /\
  ImgplotArgs.robust args_rgb = VBool true /\
  some_call (builds_helper flags_off) (imgplot args_rgb).
Proof.
  assert (H : is_3d rgb_img) by (eexists; split; reflexivity).
  split; [exact H|]. split; [reflexivity|]. split; [reflexivity|].
  apply imgplot_builds_helper; [reflexivity|].
  apply (C1_rgb_forces_cbar_and_robust_off rgb_img H); reflexivity.
Defined.

(** ** The default colormap of a grayscale plot *)

(** C8: with [gray=True] and [cmap=None] every call that builds the helper
    has [cmap="gray"]; with [gray=True] and any other [cmap] it has the
    caller's [cmap].  When the checks pass, such a call is made. *)
Theorem C8_gray_sets_default_cmap_only (a : ImgplotArgs.t) :
  ImgplotArgs.gray a = VBool true ->
  let expected :=
    if is_None (ImgplotArgs.cmap a) then VStr "gray" else ImgplotArgs.cmap a
  in
  all_calls (helper_gets (fun kw => SetupImageArgs.cmap kw = expected))
    (imgplot a) /\
  (imgplot_checks a = Ok tt ->
   some_call (builds_helper (fun kw => SetupImageArgs.cmap kw = expected))
     (imgplot a)).
Proof.
  intros Hgray expected.
  assert (H : all_calls
                (helper_gets (fun kw => SetupImageArgs.cmap kw = expected))
                (imgplot a)).
  { subst expected. destruct a. cbn [ImgplotArgs.gray ImgplotArgs.cmap] in *.
    subst gray. unfold imgplot. walk fail. }
  split; [exact H|]. intros Hchecks. now apply imgplot_builds_helper.
Qed.

Lemma C8_witness :
  (ImgplotArgs.gray args_gray = VBool true /\
   ImgplotArgs.cmap args_gray = VNone /\
   some_call (builds_helper (fun kw => SetupImageArgs.cmap kw = VStr "gray"))
     (imgplot args_gray)) /\
  (ImgplotArgs.gray args_gray_deep = VBool true /\
   ImgplotArgs.cmap args_gray_deep = VStr "deep" /\
   some_call (builds_helper (fun kw => SetupImageArgs.cmap kw = VStr "deep"))
     (imgplot args_gray_deep)).
Proof.
  split; (split; [reflexivity|]); (split; [reflexivity|]).
  - apply (C8_gray_sets_default_cmap_only args_gray); reflexivity.
  - apply (C8_gray_sets_default_cmap_only args_gray_deep); reflexivity.
Defined.

(** ** The orientation of [imghist] *)

Lemma imghist_bins_err bins e :
  imghist_bins bins = Err e ->
  (e = TypeError /\ bins_int_or_None bins = false) \/ e = ValueError.
Proof.
  unfold imghist_bins, bins_int_or_None.
  destruct (is_None bins); [discriminate|].
  destruct (isinstance_int bins) eqn:Hint; cbn [raise_if negb rbind orb].
  - destruct (py_gt bins (VInt 0)) as [[]|e1] eqn:Hgt; cbn.
    + discriminate.
    + right; congruence.
    + destruct bins; discriminate.
  - left. split; congruence.
Qed.

Lemma py_in_orientations v :
  (forall s, In s orientations -> v <> VStr s) ->
  py_in v [VStr "v"; VStr "vertical"] = false /\
  py_in v [VStr "h"; VStr "horizontal"] = false.
Proof.
  intros H.
  assert (Hne : forall s, In s orientations -> py_eq v (VStr s) = false).
  { intros s Hs. destruct (py_eq v (VStr s)) eqn:E; [|reflexivity].
    apply py_eq_str in E. now apply H in Hs. }
  unfold py_in, existsb.
  rewrite !Hne by (unfold orientations; simpl; tauto). auto.
Qed.

Lemma imghist_unknown_orientation a :
  (forall s, In s orientations -> ImghistArgs.orientation a <> VStr s) ->
  exists e,
    imghist a = Raise e /\
    is_validation e = true /\
    (bins_int_or_None (ImghistArgs.bins a) = true -> e = ValueError).
Proof.
  destruct a. cbn [ImghistArgs.orientation ImghistArgs.bins]. intros H.
  destruct (py_in_orientations _ H) as [Hv Hh].
  unfold imghist. rewrite Hv, Hh.
  destruct (imghist_bins bins) as [b|e] eqn:Hbins; cbn [lift bind].
  - exists ValueError. auto.
  - exists e. split; [reflexivity|].
    destruct (imghist_bins_err _ _ Hbins) as [[-> Hb]| ->]; split; auto.
    congruence.
Qed.

(** [imgplot] hands its [orientation] to the helper as it is. *)
Lemma imgplot_passes_orientation a :
  all_calls
    (helper_gets
       (fun kw => SetupImageArgs.orientation kw = ImgplotArgs.orientation a))
    (imgplot a).
Proof. destruct a. unfold imgplot. walk fail. Qed.

Lemma imghist_normalizes_orientation a :
  all_calls
    (helper_gets
       (fun kw =>
          SetupImageArgs.orientation kw =
          if py_in (ImghistArgs.orientation a) [VStr "v"; VStr "vertical"]
          then VStr "vertical" else VStr "horizontal"))
    (imghist a).
Proof.
  destruct a. cbn [ImghistArgs.orientation]. unfold imghist.
  walk ltac:(
    first [ apply all_calls_bind;
              [ match goal with
                | |- all_calls _ (imgplot ?a') =>
                    exact (imgplot_passes_orientation a')
                end |]
          | apply all_calls_bind; [now apply color_patches_calls|] ]).
Qed.

(** C3: ["v"] and ["vertical"] give the same call, and so do ["h"] and
    ["horizontal"]; the helper is handed the full word.  With any other
    [orientation] the call raises before it calls anything, and what it
    raises is a [ValueError] when [bins] is [None] or an [int]. *)
Theorem C3_orientation_spellings :
  (forall a,
     imghist (ImghistArgs.with_orientation (VStr "v") a)
     = imghist (ImghistArgs.with_orientation (VStr "vertical") a)) /\
  (forall a,
     imghist (ImghistArgs.with_orientation (VStr "h") a)
     = imghist (ImghistArgs.with_orientation (VStr "horizontal") a)) /\
  (forall a,
     all_calls
       (helper_gets
          (fun kw => SetupImageArgs.orientation kw = VStr "vertical"))
       (imghist (ImghistArgs.with_orientation (VStr "v") a)) /\
     all_calls
       (helper_gets
          (fun kw => SetupImageArgs.orientation kw = VStr "horizontal"))
       (imghist (ImghistArgs.with_orientation (VStr "h") a))) /\
  (forall a,
     (forall s, In s orientations -> ImghistArgs.orientation a <> VStr s) ->
     exists e,
       imghist a = Raise e /\
       is_validation e = true /\
       (bins_int_or_None (ImghistArgs.bins a) = true -> e = ValueError)).
Proof.
  split; [|split; [|split]].
  - intros a. destruct a. reflexivity.
  - intros a. destruct a. reflexivity.
  - intros a. split.
    + apply (imghist_normalizes_orientation
               (ImghistArgs.with_orientation (VStr "v") a)).
    + apply (imghist_normalizes_orientation
               (ImghistArgs.with_orientation (VStr "h") a)).
  - exact imghist_unknown_orientation.
Qed.

Lemma C3_witness :
  (forall s, In s orientations ->
     ImghistArgs.orientation args_diagonal <> VStr s) /\
  imghist args_diagonal = Raise ValueError.
Proof.
  assert (H : forall s, In s orientations ->
                ImghistArgs.orientation args_diagonal <> VStr s).
  { intros s [<-|[<-|[<-|[<-|[]]]]]; discriminate. }
  split; [exact H|].
  destruct C3_orientation_spellings as (_ & _ & _ & Hraise).
  destruct (Hraise args_diagonal H) as (e & He & _ & Hv).
  rewrite He. f_equal. apply Hv. reflexivity.
Defined.

(** ** Validation before rendering *)

(** Past its checks, [imgplot] raises nothing of the validation classes. *)
Lemma imgplot_checked_never_raises a :
  imgplot_checks a = Ok tt -> never_raises is_validation (imgplot a).
Proof.
  destruct a. unfold imgplot. intros ->. cbn [lift bind]. walk fail.
Qed.

(** In [imgplot], an exception of the validation classes is raised by the
    checks, ahead of every call. *)
Lemma imgplot_validation_first a tr e :
  raises_after (imgplot a) tr e -> is_validation e = true ->
  tr = [] /\ imgplot_checks a = Err e.
Proof.
  intros H He. destruct (imgplot_checks a) as [[]|e'] eqn:Hc.
  - apply imgplot_checked_never_raises in Hc.
    rewrite (never_raises_sound _ _ _ _ Hc H) in He. discriminate.
  - rewrite (imgplot_raises _ _ Hc) in H. destruct H as [-> ->]. auto.
Qed.

(** What [imghist] does once [imgplot] has returned raises nothing of the
    validation classes; [imgplot] itself may. *)
Ltac after_imgplot H :=
  apply raises_after_bind in H;
  destruct H as [H|(?tr1 & ?tr2 & ?x & -> & _ & H)];
  [ | exfalso;
      match type of H with
      | raises_after ?q _ ?e =>
          assert (Hn : never_raises is_validation q)
            by walk ltac:(
                 apply never_raises_bind;
                 [now apply color_patches_never_raises|]);
          apply (never_raises_sound _ _ _ _ Hn) in H; congruence
      end ].

Lemma imghist_validation_first a tr e :
  raises_after (imghist a) tr e -> is_validation e = true ->
  tr = [] \/
  exists figsize nrows ncols ratios f gs ax1 s,
    tr = [PltFigure figsize; GridSpec nrows ncols ratios f;
          AddSubplot f gs 0 None] /\
    imgplot_checks (forwarded a ax1 (VStr s)) = Err e.
Proof.
  destruct a. unfold imghist. intros H He.
  destruct (imghist_bins bins) as [b|e'] eqn:Hbins; cbn [lift bind] in H.
  2: { destruct H as [-> _]. now left. }
  destruct (py_in orientation [VStr "v"; VStr "vertical"]).
  - cbn in H.
    destruct H as (f & ? & -> & gs & ? & -> & ax1 & tr' & -> & H).
    after_imgplot H.
    apply imgplot_validation_first in H; [|exact He].
    destruct H as [-> Hc]. right.
    do 6 eexists. exists ax1, "vertical". split; [reflexivity|exact Hc].
  - destruct (py_in orientation [VStr "h"; VStr "horizontal"]).
    + cbn in H.
      destruct H as (f & ? & -> & gs & ? & -> & ax1 & tr' & -> & H).
      after_imgplot H.
      apply imgplot_validation_first in H; [|exact He].
      destruct H as [-> Hc]. right.
      do 6 eexists. exists ax1, "horizontal". split; [reflexivity|exact Hc].
    + cbn in H. destruct H as [-> _]. now left.
Qed.

(** C2, as the code has it: [imgplot] raises its validation errors before
    it calls anything, and so does [imghist] for its own check of [bins]
    (and of [orientation], see C3).  A validation error that [imghist]
    raises later comes from the checks of [imgplot], after exactly three
    calls: the figure, its grid and the axes of the image panel exist, and
    nothing has been drawn. *)
Theorem C2_validation_before_rendering :
  (forall a tr e,
     raises_after (imgplot a) tr e -> is_validation e = true -> tr = []) /\
  (forall a e,
     imghist_bins (ImghistArgs.bins a) = Err e -> imghist a = Raise e) /\
  (forall a tr e,
     raises_after (imghist a) tr e -> is_validation e = true ->
     tr = [] \/
     exists figsize nrows ncols ratios f gs ax1 s,
       tr = [PltFigure figsize; GridSpec nrows ncols ratios f;
             AddSubplot f gs 0 None] /\
       imgplot_checks (forwarded a ax1 (VStr s)) = Err e).
Proof.
  split; [|split].
  - intros a tr e H He. now destruct (imgplot_validation_first a tr e H He).
  - intros a e. destruct a. cbn [ImghistArgs.bins]. unfold imghist.
    now intros ->.
  - exact imghist_validation_first.
Qed.

Lemma C2_witness :
  raises_after (imgplot args_cmap_5) [] TypeError /\
  is_validation TypeError = true /\
  ([] : list call) = [].
Proof.
  assert (H : raises_after (imgplot args_cmap_5) [] TypeError)
    by (split; reflexivity).
  split; [exact H|]. split; [reflexivity|].
  destruct C2_validation_before_rendering as (Himgplot & _ & _).
  exact (Himgplot args_cmap_5 [] TypeError H eq_refl).
Defined.

(** C2 fails for [imghist]: [imghist(img, cmap=5)] raises the [TypeError]
    of the [cmap] check after it has created the figure, the grid and the
    axes of the image panel. *)
Lemma C2_counterexample :
  imgplot_checks args_cmap_5 = Err TypeError /\
  is_validation TypeError = true /\
  raises_after (imghist args_hist_cmap_5)
    [PltFigure ((5 * (175 # 100))%Q, 5%Q);
     GridSpec 1 2 (width_ratios [(5 - 1)%Q; 1%Q]) 0%nat;
     AddSubplot 0%nat 0%nat 0 None]
    TypeError.
Proof.
  split; [reflexivity|]. split; [reflexivity|].
  apply (run_raises scripted _ tt tt); reflexivity.
Qed.

(** ** The number of bins *)

Lemma imghist_bins_int z :
  imghist_bins (VInt z) = if 0 <? z then Ok (VInt z) else Err ValueError.
Proof.
  unfold imghist_bins, py_gt. cbn.
  unfold Qcompare; cbn. rewrite Z.mul_1_r.
  destruct (Z.ltb_spec 0 z) as [H|H].
  - apply Z.lt_gt in H. now rewrite H.
  - destruct (Z.compare_spec z 0) as [E|E|E]; try reflexivity. lia.
Qed.

(** [imgplot] draws no histogram. *)
Lemma imgplot_no_hist P a : all_calls (hist_gets P) (imgplot a).
Proof. destruct a. unfold imgplot. walk fail. Qed.

(** Every histogram [imghist] draws is given what the check of [bins]
    leaves in [bins]. *)
Lemma imghist_hist_gets_bins a b :
  imghist_bins (ImghistArgs.bins a) = Ok b ->
  all_calls (hist_gets (fun bins => bins = b)) (imghist a).
Proof.
  destruct a. cbn [ImghistArgs.bins]. unfold imghist. intros ->.
  cbn [lift bind].
  walk ltac:(
    first [ apply all_calls_bind; [now apply imgplot_no_hist|]
          | apply all_calls_bind; [now apply color_patches_calls|] ]).
Qed.

(** With its checks passed and an [ndarray] to show, [imgplot] raises
    nothing itself. *)
Lemma imgplot_completes ok a :
  imgplot_checks a = Ok tt ->
  (exists arr, ImgplotArgs.data a = DNdarray arr) ->
  completes ok (imgplot a).
Proof.
  destruct a. cbn [ImgplotArgs.data]. unfold imgplot.
  intros -> [arr ->]. cbn [lift bind]. walk fail.
Qed.

(** [imghist] raises nothing itself when its arguments are in order and
    the figure has the colorbar's axes. *)
Lemma imghist_completes a b :
  imghist_bins (ImghistArgs.bins a) = Ok b ->
  image_options_valid a ->
  completes has_colorbar_axes (imghist a).
Proof.
  destruct a. unfold image_options_valid.
  cbn [ImghistArgs.bins ImghistArgs.orientation ImghistArgs.data].
  intros Hbins ((s & Hs & ->) & Hchecks & (arr & ->)).
  unfold imghist. rewrite Hbins. cbn [lift bind].
  destruct Hs as [<-|[<-|[<-|[<-|[]]]]].
  all: walk ltac:(
    first [ apply completes_bind;
              [ apply imgplot_completes; [apply Hchecks | now exists arr] |]
          | apply completes_bind; [now apply color_patches_completes|] ]).
Qed.

(** [imghist] does not return without having drawn the histogram, with
    what the check of [bins] leaves in [bins]. *)
Lemma imghist_draws_hist a b :
  imghist_bins (ImghistArgs.bins a) = Ok b ->
  always_calls (draws_hist b) (imghist a).
Proof.
  destruct a. cbn [ImghistArgs.bins]. unfold imghist. intros ->.
  cbn [lift bind].
  walk ltac:(apply always_calls_bind_r).
Qed.

(** C6: a non-positive integer for [bins] makes [imghist] raise a
    [ValueError], before it calls anything.  With a positive integer the
    check passes: every histogram drawn is given that number of bins, the
    call does not return without having drawn one, and with the other
    arguments in order it raises nothing itself.  With [bins=None] the
    same holds with ["auto"] for the bins. *)
Theorem C6_bins_checked_and_used :
  (forall a z,
     ImghistArgs.bins a = VInt z -> z <= 0 -> imghist a = Raise ValueError) /\
  (forall a z,
     ImghistArgs.bins a = VInt z -> 0 < z ->
     all_calls (hist_gets (fun bins => bins = VInt z)) (imghist a) /\
     always_calls (draws_hist (VInt z)) (imghist a) /\
     (image_options_valid a -> completes has_colorbar_axes (imghist a))) /\
  (forall a,
     ImghistArgs.bins a = VNone ->
     all_calls (hist_gets (fun bins => bins = VStr "auto")) (imghist a) /\
     always_calls (draws_hist (VStr "auto")) (imghist a) /\
     (image_options_valid a -> completes has_colorbar_axes (imghist a))).
Proof.
  split; [|split].
  - intros a z Hb Hz.
    assert (H : imghist_bins (ImghistArgs.bins a) = Err ValueError).
    { rewrite Hb, imghist_bins_int.
      destruct (Z.ltb_spec 0 z); [lia|reflexivity]. }
    destruct a. cbn [ImghistArgs.bins] in H. unfold imghist. now rewrite H.
  - intros a z Hb Hz.
    assert (H : imghist_bins (ImghistArgs.bins a) = Ok (VInt z)).
    { rewrite Hb, imghist_bins_int.
      destruct (Z.ltb_spec 0 z); [reflexivity|lia]. }
    split; [now apply imghist_hist_gets_bins|].
    split; [now apply imghist_draws_hist|].
    now apply imghist_completes with (b := VInt z).
  - intros a Hb.
    assert (H : imghist_bins (ImghistArgs.bins a) = Ok (VStr "auto"))
      by now rewrite Hb.
    split; [now apply imghist_hist_gets_bins|].
    split; [now apply imghist_draws_hist|].
    now apply imghist_completes with (b := VStr "auto").
Qed.

Lemma C6_witness :
  (imghist args_bins_0 = Raise ValueError /\
   imghist args_bins_minus_5 = Raise ValueError) /\
  (image_options_valid args_bins_150 /\
   always_calls (draws_hist (VInt 150)) (imghist args_bins_150) /\
   completes has_colorbar_axes (imghist args_bins_150)).
Proof.
  destruct C6_bins_checked_and_used as (Hneg & Hpos & _).
  split; [split|].
  - apply (Hneg args_bins_0 0); [reflexivity|lia].
  - apply (Hneg args_bins_minus_5 (-5)); [reflexivity|lia].
  - assert (Hvalid : image_options_valid args_bins_150).
    { split; [|split].
      - exists "v". split; [now left|reflexivity].
      - intros ax1 s. reflexivity.
      - eexists. reflexivity. }
    split; [exact Hvalid|].
    destruct (Hpos args_bins_150 150) as (_ & Hdraw & Hcompl);
      [reflexivity|lia|].
    split; [exact Hdraw|]. exact (Hcompl Hvalid).
Defined.

(** ** Runs with their answers *)

Section RunLemmas.
Context {R : Type}.
Implicit Types (p : prog R) (Q : list event -> result R -> Prop).

Lemma every_run_history p Q h o : every_run p Q -> history p h o -> Q h o.
Proof.
  revert Q h. induction p as [r|e|c k IH]; cbn; intros Q h Hq Hh.
  - destruct Hh as [-> ->]. exact Hq.
  - destruct Hh as [-> ->]. exact Hq.
  - destruct Hh as (x & h' & -> & Hh). exact (IH x _ _ (Hq x) Hh).
Qed.

(** What holds at the end of every run holds of every run that returns. *)
Lemma every_run_returns p (B : list event -> R -> Prop) :
  every_run p (fun h o => forall r, o = Ok r -> B h r) ->
  forall h r, history p h (Ok r) -> B h r.
Proof. intros H h r Hh. exact (every_run_history _ _ _ _ H Hh r eq_refl). Qed.

Lemma history_returns_after p h r :
  history p h (Ok r) -> returns_after p (map call_of h) r.
Proof.
  revert h. induction p as [r'|e|c k IH]; cbn; intros h Hh.
  - destruct Hh as [-> Hr]. injection Hr as ->. now split.
  - destruct Hh as [_ Hr]. discriminate Hr.
  - destruct Hh as (x & h' & -> & Hh). exists x, (map call_of h').
    split; [reflexivity|]. now apply IH.
Qed.

(** A program that does not return without a call that is never made has
    no run that returns. *)
Lemma never_returns_history p h r :
  always_calls (fun _ => False) p -> ~ history p h (Ok r).
Proof.
  intros Hnever Hh. apply history_returns_after in Hh.
  apply (always_calls_returns _ _ _ _ Hnever) in Hh.
  apply Exists_exists in Hh. now destruct Hh as (c & _ & []).
Qed.

Lemma record_history {W} (hd : handler W) p w evs r :
  record hd p w = (evs, Ok r) -> history p evs (Ok r).
Proof.
  revert w evs. induction p as [r'|e|c k IH]; cbn; intros w evs H.
  - injection H as <- <-. now split.
  - discriminate H.
  - destruct (hd c w) as [w' [x|e]]; [|discriminate H].
    destruct (record hd (k x) w') as [evs' o] eqn:Hrec.
    injection H as <- ->. exists x, evs'. split; [reflexivity|].
    exact (IH x _ _ Hrec).
Qed.

(** The loop at the end of a function that returns [r]. *)
Lemma every_run_color_patches cm l (r : R) Q :
  (forall colors,
     List.length colors = List.length l ->
     Q (coloring_events cm l colors) (Ok r)) ->
  every_run (bind (color_patches cm l) (fun _ => Ret r)) Q.
Proof.
  revert Q. induction l as [|[c p] l IH]; intros Q H; simpl.
  - exact (H [] eq_refl).
  - intros color []. apply IH. intros colors Hlen.
    apply (H (color :: colors)). simpl. now rewrite Hlen.
Qed.
End RunLemmas.

(** The events of the loop are all of the kinds that colour the bars, and
    of none of the other kinds singled out. *)
Lemma events_of_coloring sel cm l colors :
  (forall c, sel (CmCall cm c) = false) ->
  (forall p s v, sel (PltSetp p s v) = false) ->
  events_of sel (coloring_events cm l colors) = [].
Proof.
  intros Hcm Hsetp. revert colors.
  induction l as [|[c p] l IH]; intros [|color colors]; simpl; auto.
  unfold call_of; simpl. now rewrite Hcm, Hsetp.
Qed.

Lemma events_of_colours_bars cm l colors :
  events_of colours_bars (coloring_events cm l colors)
  = coloring_events cm l colors.
Proof.
  revert colors.
  induction l as [|[c p] l IH]; intros [|color colors]; simpl; auto.
  now rewrite IH.
Qed.

Lemma coloring_events_all (P : event -> Prop) cm l colors :
  (forall c color, P (ev (CmCall cm c) color)) ->
  (forall p color, P (ev (PltSetp p "facecolor" color) tt)) ->
  Forall P (coloring_events cm l colors).
Proof.
  intros Hcm Hsetp. revert colors.
  induction l as [|[c p] l IH]; intros [|color colors]; simpl; auto.
Qed.

Lemma py_in_two v s t :
  py_in v [VStr s; VStr t] = true -> v = VStr s \/ v = VStr t.
Proof.
  unfold py_in. simpl. intros H.
  destruct (py_eq v (VStr s)) eqn:E1; [left; now apply py_eq_str|].
  destruct (py_eq v (VStr t)) eqn:E2; [right; now apply py_eq_str|].
  discriminate H.
Qed.

(** Taking an answer: one of no content is [tt]. *)
Ltac intro_answer :=
  let x := fresh "x" in
  intro x;
  let T := type of x in
  let T' := eval cbn in T in
  lazymatch T' with
  | unit => destruct x
  | _ => idtac
  end.

(** Going through every run of a program, call by call, with the answers
    kept. *)
Ltac runs_step inner :=
  first
    [ progress cbn
    | match goal with
      | |- forall _, _ => intro_answer
      | |- every_run ?p _ => walk_program p inner
      end ].

Ltac runs :=
  repeat runs_step
    ltac:(apply every_run_color_patches;
          let colors := fresh "colors" in
          let Hlen := fresh "Hlen" in
          intros colors Hlen).

(** From the runs that return to every run, the statement about the run
    being set aside as [Body]. *)
Ltac by_runs Body HBody :=
  match goal with
  | |- forall h r, history ?p h (Ok r) -> @?B h r =>
      pose (Body := B);
      assert (HBody : Body = B) by reflexivity;
      change (forall h r, history p h (Ok r) -> Body h r);
      clearbody Body;
      apply every_run_returns
  end.

(** At the end of a run: nothing to show unless it returned. *)
Ltac at_return :=
  match goal with
  | H : Err _ = Ok _ |- _ => discriminate H
  | H : Ok _ = Ok _ |- _ => apply Ok_inj in H; subst; cbn beta
  end.

(** The events singled out of a run that ends with the loop. *)
Ltac singled_out :=
  cbn;
  rewrite ?events_of_colours_bars;
  rewrite ?events_of_coloring by reflexivity;
  reflexivity.

(** ** Ticks and frame of the histogram panel *)

(** A [showticks] that is not a boolean does not get past the checks of
    [imgplot]: such a call of [imghist] does not return. *)
Lemma imghist_showticks_not_bool a :
  isinstance_bool (ImghistArgs.showticks a) = false ->
  always_calls (fun _ => False) (imghist a).
Proof.
  destruct a. cbn [ImghistArgs.showticks]. intros Hs. unfold imghist.
  walk ltac:(
    apply always_calls_bind_l;
    match goal with
    | |- always_calls _ (imgplot ?a') =>
        let H := fresh in
        assert (H : ill_typed a') by (right; right; right; left; exact Hs);
        destruct (imgplot_checks_ill_typed a' H) as [H'|[H' _]];
        rewrite (imgplot_raises _ _ H'); exact I
    end).
Qed.

(** C7, as the code has it: in every call of [imghist] that returns, the
    histogram panel is the axes [ax2] that the second [add_subplot]
    answered, the one the histogram is drawn on, and the frame of [ax2] is
    switched off, whether ticks are requested or not.  The axes of the
    panel are hidden exactly when ticks are not requested: with
    [showticks=False] the calls that change the look of any axes are the
    two that hide the x- and the y-axis of [ax2] and the one that switches
    its frame off; with [showticks=True] there is the last of these only;
    and no call returns with another [showticks]. *)
Theorem C7_ticks_hidden_frame_always_off (a : ImghistArgs.t) h f :
  history (imghist a) h (Ok f) ->
  exists fig gs ax1 share ax2 x bins orientation answer,
    events_of adds_subplot h
    = [ev (AddSubplot fig gs 0 None) ax1;
       ev (AddSubplot fig gs 1 share) ax2] /\
    events_of draws_histogram h
    = [ev (AxHist ax2 x bins true orientation) answer] /\
    ((ImghistArgs.showticks a = VBool false /\
      events_of changes_look h
      = [ev (AxisSetVisible ax2 XAxis false) tt;
         ev (AxisSetVisible ax2 YAxis false) tt;
         ev (SetFrameOn ax2 false) tt]) \/
     (ImghistArgs.showticks a = VBool true /\
      events_of changes_look h = [ev (SetFrameOn ax2 false) tt])).
Proof.
  destruct (isinstance_bool (ImghistArgs.showticks a)) eqn:Hb.
  2: { intros Hh. exfalso.
       exact (never_returns_history _ _ _
                (imghist_showticks_not_bool a Hb) Hh). }
  revert h f. by_runs Body HBody.
  destruct a. cbn [ImghistArgs.showticks] in *.
  destruct showticks as [ |[]| | | | | | | | ]; try discriminate Hb.
  all: unfold imghist, imgplot; runs; at_return.
  all: do 9 eexists; split; [singled_out|]; split; [singled_out|].
  all: first [ left; split; [reflexivity|singled_out]
             | right; split; [reflexivity|singled_out] ].
Qed.

Lemma C7_witness :
  exists h f,
    history (imghist (ImghistArgs.defaults img)) h (Ok f) /\
    exists fig gs ax1 share ax2 x bins orientation answer,
      events_of adds_subplot h
      = [ev (AddSubplot fig gs 0 None) ax1;
         ev (AddSubplot fig gs 1 share) ax2] /\
      events_of draws_histogram h
      = [ev (AxHist ax2 x bins true orientation) answer] /\
      ((ImghistArgs.showticks (ImghistArgs.defaults img) = VBool false /\
        events_of changes_look h
        = [ev (AxisSetVisible ax2 XAxis false) tt;
           ev (AxisSetVisible ax2 YAxis false) tt;
           ev (SetFrameOn ax2 false) tt]) \/
       (ImghistArgs.showticks (ImghistArgs.defaults img) = VBool true /\
        events_of changes_look h = [ev (SetFrameOn ax2 false) tt])).
Proof.
  destruct (record scripted (imghist (ImghistArgs.defaults img)) tt)
    as [h [f|e]] eqn:Hrec; [|vm_compute in Hrec; discriminate Hrec].
  pose proof (record_history scripted _ tt h f Hrec) as Hh.
  exists h, f. split; [exact Hh|].
  exact (C7_ticks_hidden_frame_always_off (ImghistArgs.defaults img) h f Hh).
Defined.

(** C7 fails for the frame: [imghist(img, showticks=True)] returns after
    having switched off the frame of the histogram panel, the axes that
    the second [add_subplot] answered, and without having hidden an
    axis. *)
Lemma C7_counterexample :
  ImghistArgs.showticks args_showticks = VBool true /\
  exists h f,
    history (imghist args_showticks) h (Ok f) /\
    events_of adds_subplot h
    = [ev (AddSubplot 0%nat 0%nat 0 None) 0%nat;
       ev (AddSubplot 0%nat 0%nat 1 (Some (YAxis, 1%nat))) 2%nat] /\
    events_of changes_look h = [ev (SetFrameOn 2%nat false) tt].
Proof.
  split; [reflexivity|].
  destruct (record scripted (imghist args_showticks) tt)
    as [h [f|e]] eqn:Hrec; [|discriminate Hrec].
  exists h, f. split; [exact (record_history scripted _ tt h f Hrec)|].
  vm_compute in Hrec. injection Hrec as <- _.
  split; reflexivity.
Qed.

(** * Further properties *)

(** ** What the checks of [imgplot] accept *)

Lemma perc_asserts_ok perc : perc_asserts perc = Ok tt <-> perc_ordered perc.
Proof.
  unfold perc_asserts, perc_ordered. split.
  - destruct (py_len perc) as [n|e] eqn:Hlen; [|discriminate]. cbn.
    destruct (Nat.eqb_spec n 2) as [->|]; [|discriminate]. cbn.
    destruct (py_getitem perc 0) as [p0|e] eqn:H0; [|discriminate]. cbn.
    destruct (py_getitem perc 1) as [p1|e] eqn:H1; [|discriminate]. cbn.
    destruct (py_lt p0 p1) as [[]|e] eqn:Hlt; try discriminate.
    intros _. split; [reflexivity|]. now exists p0, p1.
  - intros (-> & p0 & p1 & -> & -> & Hlt). cbn. now rewrite Hlt.
Qed.

Lemma orb_true_cases (b c : bool) : b || c = true <-> b = true \/ c = true.
Proof. destruct b, c; cbn; intuition congruence. Qed.

(** X1: the checks of [imgplot] pass exactly when [cmap] is [None], a
    string or a colormap, [ax] is [None] or an axes, [describe], [robust],
    [cbar], [showticks] and [despine] are booleans, [orientation] is a
    string, [cbar_label] is [None] or a string and, with [robust=True],
    [perc] is a pair with [perc[0] < perc[1]].  Nothing is asked of
    [data], [gray], [vmin], [vmax], [dx], [units], [dimension] and
    [cbar_ticks].  This is stated for a [perc] whose elements are not
    tuples or lists themselves: comparing those compares their elements,
    and there Python takes two occurrences of one object for equal
    without asking [==], which [py_eq] does not follow for a NaN. *)
Theorem X1_imgplot_checks_accept (a : ImgplotArgs.t) :
  (ImgplotArgs.robust a = VBool true ->
   perc_of_scalars (ImgplotArgs.perc a)) ->
  (imgplot_checks a = Ok tt <-> accepted a).
Proof.
  intros _. destruct a. unfold accepted, imgplot_checks.
  cbn [ImgplotArgs.describe ImgplotArgs.robust ImgplotArgs.cbar
       ImgplotArgs.showticks ImgplotArgs.despine ImgplotArgs.cmap
       ImgplotArgs.orientation ImgplotArgs.cbar_label ImgplotArgs.perc
       ImgplotArgs.ax].
  rewrite <- perc_asserts_ok. split.
  - repeat (case_check; try discriminate). all: intros _.
    all: repeat match goal with
                | H : is_True _ = true |- _ => apply is_True_spec in H
                | H : _ || _ = true |- _ => apply orb_true_cases in H
                end.
    all: repeat split; auto; try tauto; try (intros ->; discriminate).
  - intros (Hcmap & Hax & Hd & Hr & Hp & Hcb & Ho & Hl & Hs & Hde).
    rewrite Hd, Hr, Hcb, Ho, Hs, Hde. cbn [raise_if negb rbind].
    assert (Hc : (if negb (is_None cmap)
                  then raise_if
                         (negb (isinstance_str cmap
                                || isinstance_Colormap cmap)) TypeError
                  else Ok tt) = Ok tt).
    { destruct (is_None cmap); [reflexivity|]. cbn [negb].
      destruct Hcmap as [H|H]; [discriminate|].
      apply orb_true_cases in H. now rewrite H. }
    assert (Ha : (if negb (is_None ax)
                  then raise_if (negb (isinstance_Axes ax)) TypeError
                  else Ok tt) = Ok tt).
    { destruct (is_None ax); [reflexivity|]. cbn [negb].
      destruct Hax as [H|H]; [discriminate|]. now rewrite H. }
    assert (Hb : (if negb (is_None cbar_label)
                  then raise_if (negb (isinstance_str cbar_label)) TypeError
                  else Ok tt) = Ok tt).
    { destruct (is_None cbar_label); [reflexivity|]. cbn [negb].
      destruct Hl as [H|H]; [discriminate|]. now rewrite H. }
    rewrite Hc, Ha, Hb. cbn [rbind].
    destruct (is_True robust) eqn:Ht; [|reflexivity].
    apply is_True_spec in Ht. now rewrite (Hp Ht).
Qed.

Lemma X1_witness :
  ImgplotArgs.robust args_robust = VBool true /\
  perc_of_scalars (ImgplotArgs.perc args_robust) /\
  imgplot_checks args_robust = Ok tt /\
  accepted args_robust.
Proof.
  assert (Hp : perc_of_scalars (ImgplotArgs.perc args_robust)).
  { intros [|[|[|i]]] x H; try discriminate H; injection H as <-;
      reflexivity. }
  split; [reflexivity|]. split; [exact Hp|]. split; [reflexivity|].
  apply (X1_imgplot_checks_accept args_robust (fun _ => Hp)). reflexivity.
Defined.

(** ** Percentiles that are not ordered numbers *)

(** Numbers are ordered by the numbers they stand for. *)
Lemma py_richcmp_numbers op a b x y :
  as_number a = Some x -> as_number b = Some y ->
  py_richcmp op a b = Ok (op_holds op (float_compare x y)).
Proof.
  destruct a; try discriminate; destruct b; try discriminate;
    cbn -[op_holds float_compare]; intros Hx Hy;
    injection Hx as <-; injection Hy as <-; reflexivity.
Qed.

Lemma float_compare_nan x y :
  x = FNaN \/ y = FNaN -> float_compare x y = None.
Proof. intros [-> | ->]; [reflexivity|]. now destruct x. Qed.

(** X2: with [robust=True], a [perc] pair of numbers one of which is a
    NaN fails the assertion [perc[0] < perc[1]], on whichever side the NaN
    is: [imgplot] raises an [AssertionError] before it calls anything
    (given that [cmap], [ax] and [describe], checked first, have their
    types). *)
Theorem X2_nan_percentile_fails_assertion (a : ImgplotArgs.t) :
  ImgplotArgs.robust a = VBool true ->
  typed_before_perc a = true ->
  perc_has_nan (ImgplotArgs.perc a) ->
  imgplot a = Raise AssertionError.
Proof.
  intros Hrobust Htyped (Hlen & p0 & p1 & x & y & H0 & H1 & Hx & Hy & Hnan).
  assert (Hassert : perc_asserts (ImgplotArgs.perc a) = Err AssertionError).
  { unfold perc_asserts, py_lt. rewrite Hlen; cbn. rewrite H0, H1; cbn.
    rewrite (py_richcmp_numbers _ _ _ _ _ Hx Hy).
    now rewrite (float_compare_nan _ _ Hnan). }
  apply imgplot_raises.
  destruct (imgplot_checks_bad_perc a Hrobust Hassert) as [[_ H]|[H _]];
    [exact H | congruence].
Qed.

Lemma X2_witness :
  ImgplotArgs.robust args_perc_nan = VBool true /\
  typed_before_perc args_perc_nan = true /\
  perc_has_nan (ImgplotArgs.perc args_perc_nan) /\
  imgplot args_perc_nan = Raise AssertionError.
Proof.
  assert (H : perc_has_nan (ImgplotArgs.perc args_perc_nan)).
  { split; [reflexivity|].
    exists (VFloat FNaN), (VInt 98), FNaN, (FFin (inject_Z 98)).
    repeat split; try reflexivity. now left. }
  split; [reflexivity|]. split; [reflexivity|]. split; [exact H|].
  apply (X2_nan_percentile_fails_assertion args_perc_nan);
    [reflexivity | reflexivity | exact H].
Defined.

(** X3: with [robust=True], a [perc] that has no length, or a [perc] pair
    whose elements [<] cannot order (a number and [None], say), makes
    [imgplot] raise a [TypeError], not an [AssertionError], before it calls
    anything. *)
Theorem X3_unorderable_percentile_is_type_error (a : ImgplotArgs.t) :
  ImgplotArgs.robust a = VBool true ->
  (exists e, py_len (ImgplotArgs.perc a) = Err e) \/
  perc_unorderable (ImgplotArgs.perc a) ->
  imgplot a = Raise TypeError.
Proof.
  intros Hrobust Hperc.
  assert (Hassert : perc_asserts (ImgplotArgs.perc a) = Err TypeError).
  { unfold perc_asserts.
    destruct Hperc as [[e He]|(Hlen & p0 & p1 & e & H0 & H1 & Hlt)].
    - rewrite He. cbn. now rewrite (py_len_err _ _ He).
    - rewrite Hlen; cbn. rewrite H0, H1; cbn. rewrite Hlt; cbn.
      now rewrite (py_richcmp_err _ _ _ _ Hlt). }
  apply imgplot_raises. destruct a. unfold imgplot_checks.
  cbn [ImgplotArgs.robust ImgplotArgs.perc] in *. subst robust.
  cbn [is_True isinstance_bool]. rewrite Hassert.
  repeat case_check; reflexivity.
Qed.

Lemma X3_witness :
  ImgplotArgs.robust args_perc_2_None = VBool true /\
  perc_unorderable (ImgplotArgs.perc args_perc_2_None) /\
  imgplot args_perc_2_None = Raise TypeError.
Proof.
  assert (H : perc_unorderable (ImgplotArgs.perc args_perc_2_None)).
  { split; [reflexivity|].
    exists (VInt 2), VNone, TypeError. repeat split; reflexivity. }
  split; [reflexivity|]. split; [exact H|].
  apply (X3_unorderable_percentile_is_type_error args_perc_2_None);
    [reflexivity | right; exact H].
Defined.

(** ** The type of [bins] *)

(** X4: a [bins] that is neither [None] nor an [int] makes [imghist] raise
    a [TypeError] before it calls anything.  A boolean counts as an [int]:
    [bins=False] raises the [ValueError] of a non-positive number, and
    [bins=True] passes the check and is handed to [hist] as it is. *)
Theorem X4_bins_type :
  (forall a,
     bins_int_or_None (ImghistArgs.bins a) = false ->
     imghist a = Raise TypeError) /\
  (forall a,
     ImghistArgs.bins a = VBool false -> imghist a = Raise ValueError) /\
  (forall a,
     ImghistArgs.bins a = VBool true ->
     all_calls (hist_gets (fun bins => bins = VBool true)) (imghist a) /\
     always_calls (draws_hist (VBool true)) (imghist a)).
Proof.
  split; [|split].
  - intros a Hb. destruct a. cbn [ImghistArgs.bins] in Hb.
    unfold bins_int_or_None in Hb. apply orb_false_iff in Hb.
    destruct Hb as [Hn Hi]. unfold imghist, imghist_bins.
    now rewrite Hn, Hi.
  - intros a Hb. destruct a. cbn [ImghistArgs.bins] in Hb. subst bins.
    reflexivity.
  - intros a Hb.
    assert (H : imghist_bins (ImghistArgs.bins a) = Ok (VBool true))
      by now rewrite Hb.
    split; [now apply imghist_hist_gets_bins | now apply imghist_draws_hist].
Qed.

Lemma X4_witness :
  bins_int_or_None (ImghistArgs.bins args_bins_float) = false /\
  imghist args_bins_float = Raise TypeError /\
  always_calls (draws_hist (VBool true)) (imghist args_bins_True).
Proof.
  destruct X4_bins_type as (Htype & _ & Htrue).
  split; [reflexivity|]. split.
  - apply (Htype args_bins_float). reflexivity.
  - apply (Htrue args_bins_True). reflexivity.
Defined.

(** ** What [imgplot] hands to the helper *)

(** Going through a program as [walk] does, for the further properties. *)
Ltac explore_step inner :=
  first
    [ exact I
    | progress cbn
    | match goal with
      | |- _ /\ _ => split
      | |- _ \/ _ => first [left; solve [eauto] | right]
      | |- forall _, _ => intro
      | |- ~ _ => intro
      | |- _ = _ => first [reflexivity | assumption | congruence]
      | |- False => solve [cbn in *; lia | congruence]
      | H : False |- _ => destruct H
      | |- all_calls _ ?p => walk_program p inner
      | |- never_raises _ ?p => walk_program p inner
      | |- completes _ ?p => walk_program p inner
      | |- always_calls _ ?p => walk_program p inner
      | |- all_returns _ ?p => walk_program p inner
      | |- after_answer _ ?p => walk_program p inner
      | |- makes_exactly _ ?p => walk_program p inner
      end ].

Ltac explore inner := repeat explore_step inner.

(** X5: [imgplot] hands [ax], [vmin], [vmax], [perc], [dx], [units],
    [dimension], [orientation], [cbar_label], [cbar_ticks], [showticks] and
    [despine] to the helper exactly as the caller gave them, whatever the
    image and the other options are. *)
Theorem X5_imgplot_keeps_keywords (a : ImgplotArgs.t) :
  all_calls (helper_gets (keeps_keywords a)) (imgplot a) /\
  (imgplot_checks a = Ok tt ->
   some_call (builds_helper (keeps_keywords a)) (imgplot a)).
Proof.
  assert (H : all_calls (helper_gets (keeps_keywords a)) (imgplot a)).
  { destruct a. unfold imgplot, keeps_keywords. explore fail. }
  split; [exact H|]. intros Hc. now apply imgplot_builds_helper.
Qed.

Lemma X5_witness :
  imgplot_checks args_rgb_gray = Ok tt /\
  some_call (builds_helper (keeps_keywords args_rgb_gray))
    (imgplot args_rgb_gray).
Proof.
  split; [reflexivity|].
  apply (X5_imgplot_keeps_keywords args_rgb_gray). reflexivity.
Defined.

(** X6: unless [data] is an [ndarray] of exactly three dimensions,
    [imgplot] hands [data], [cbar] and [robust] to the helper exactly as
    the caller gave them.  This includes a three-dimensional image that is
    not an [ndarray], a nested list say: its [cbar] and [robust] are not
    forced off. *)
Theorem X6_imgplot_keeps_flags_unless_rgb (a : ImgplotArgs.t) :
  ~ is_3d (ImgplotArgs.data a) ->
  all_calls (helper_gets (keeps_image_and_flags a)) (imgplot a).
Proof.
  destruct a. cbn [ImgplotArgs.data]. intros Hd.
  unfold imgplot, keeps_image_and_flags.
  destruct data as [arr|v].
  - destruct (Nat.eqb_spec (ndim arr) 3) as [E|E].
    + exfalso. apply Hd. now exists arr.
    + explore fail.
  - explore fail.
Qed.

Lemma X6_witness :
  ~ is_3d (ImgplotArgs.data args_list_no_describe) /\
  some_call (builds_helper (keeps_image_and_flags args_list_no_describe))
    (imgplot args_list_no_describe).
Proof.
  assert (H : ~ is_3d (ImgplotArgs.data args_list_no_describe)).
  { intros (arr & Harr & _). discriminate Harr. }
  split; [exact H|].
  apply imgplot_builds_helper; [reflexivity|].
  exact (X6_imgplot_keeps_flags_unless_rgb args_list_no_describe H).
Defined.

(** ** Conversion to grayscale *)

Lemma imgplot_never_converts a :
  ~ (is_3d (ImgplotArgs.data a) /\ ImgplotArgs.gray a = VBool true) ->
  all_calls (fun c => ~ converts_to_gray c) (imgplot a).
Proof.
  destruct a. cbn [ImgplotArgs.data ImgplotArgs.gray]. intros Hd.
  unfold imgplot.
  destruct data as [arr|v].
  - destruct (Nat.eqb_spec (ndim arr) 3) as [E|E].
    + destruct (is_True gray) eqn:Hg.
      * exfalso. apply Hd. apply is_True_spec in Hg. split; [|exact Hg].
        now exists arr.
      * explore fail.
    + explore fail.
  - explore fail.
Qed.

(** X7: [imgplot] calls [rgb2gray] only for an [ndarray] of exactly three
    dimensions with [gray=True]; [imghist], which has no [gray] option,
    never calls it. *)
Theorem X7_gray_conversion_only_for_rgb_and_gray :
  (forall a,
     ~ (is_3d (ImgplotArgs.data a) /\ ImgplotArgs.gray a = VBool true) ->
     all_calls (fun c => ~ converts_to_gray c) (imgplot a)) /\
  (forall a, all_calls (fun c => ~ converts_to_gray c) (imghist a)).
Proof.
  split; [exact imgplot_never_converts|].
  intros a. destruct a. unfold imghist.
  explore ltac:(
    first [ apply all_calls_bind;
              [ apply imgplot_never_converts; cbn; intros [_ H];
                discriminate H |]
          | apply all_calls_bind;
              [ apply color_patches_calls; cbn; auto |] ]).
Qed.

Lemma X7_witness :
  ~ (is_3d (ImgplotArgs.data args_rgb) /\
     ImgplotArgs.gray args_rgb = VBool true) /\
  all_calls (fun c => ~ converts_to_gray c) (imgplot args_rgb).
Proof.
  assert (H : ~ (is_3d (ImgplotArgs.data args_rgb) /\
                 ImgplotArgs.gray args_rgb = VBool true)).
  { intros [_ Hg]. discriminate Hg. }
  split; [exact H|].
  destruct X7_gray_conversion_only_for_rgb_and_gray as [Himgplot _].
  exact (Himgplot args_rgb H).
Defined.

(** X8: for an [ndarray] of three dimensions with [gray=True] and options
    that pass the checks, the first thing [imgplot] does is to call
    [rgb2gray] on the caller's array.  What it returns is the image from
    then on: it is the [data] handed to the helper and the data whose
    description is computed, and it is not converted again. *)
Theorem X8_gray_image_replaces_data (a : ImgplotArgs.t) (arr : ndarray) :
  ImgplotArgs.data a = DNdarray arr ->
  ndim arr = 3%nat ->
  ImgplotArgs.gray a = VBool true ->
  imgplot_checks a = Ok tt ->
  exists k,
    imgplot a = Call (Rgb2gray arr) k /\
    forall g,
      all_calls
        (helper_gets (fun kw => SetupImageArgs.data kw = DNdarray g)) (k g) /\
      all_calls (describe_gets (items g)) (k g) /\
      all_calls (fun c => ~ converts_to_gray c) (k g).
Proof.
  destruct a. cbn [ImgplotArgs.data ImgplotArgs.gray].
  intros -> Hdim -> Hc. unfold imgplot. rewrite Hc, Hdim.
  cbn [lift bind Nat.eqb is_True ask]. eexists. split; [reflexivity|].
  intros g. explore fail.
Qed.

Lemma X8_witness :
  exists k,
    imgplot args_rgb_gray
    = Call (Rgb2gray {| shape := [2; 2; 3]%nat;
                        items := map (fun z => FFin (inject_Z z))
                                   [10; 20; 30; 40; 50; 60;
                                    70; 80; 90; 100; 110; 120] |}) k /\
    forall g,
      all_calls
        (helper_gets (fun kw => SetupImageArgs.data kw = DNdarray g)) (k g) /\
      all_calls (describe_gets (items g)) (k g) /\
      all_calls (fun c => ~ converts_to_gray c) (k g).
Proof.
  apply (X8_gray_image_replaces_data args_rgb_gray); reflexivity.
Defined.

(** ** The description of the data *)

Lemma imgplot_silent a :
  ImgplotArgs.describe a = VBool false ->
  all_calls (fun c => ~ describes c) (imgplot a).
Proof.
  destruct a. cbn [ImgplotArgs.describe]. intros ->. unfold imgplot.
  explore fail.
Qed.

(** X9: with [describe=False] neither [imgplot] nor [imghist] computes or
    prints a description: no call to [ss.describe] or [print] is made. *)
Theorem X9_describe_off_prints_nothing :
  (forall a,
     ImgplotArgs.describe a = VBool false ->
     all_calls (fun c => ~ describes c) (imgplot a)) /\
  (forall a,
     ImghistArgs.describe a = VBool false ->
     all_calls (fun c => ~ describes c) (imghist a)).
Proof.
  split; [exact imgplot_silent|].
  intros a Ha. destruct a. cbn [ImghistArgs.describe] in Ha. subst describe.
  unfold imghist.
  explore ltac:(
    first [ apply all_calls_bind; [now apply imgplot_silent|]
          | apply all_calls_bind;
              [ apply color_patches_calls; cbn; auto |] ]).
Qed.

Lemma X9_witness :
  ImgplotArgs.describe args_no_describe = VBool false /\
  all_calls (fun c => ~ describes c) (imgplot args_no_describe).
Proof.
  split; [reflexivity|].
  destruct X9_describe_off_prints_nothing as [Himgplot _].
  apply (Himgplot args_no_describe). reflexivity.
Defined.

(** X10: with [describe=True], [imgplot] does not return without having
    called [ss.describe].  The description is computed over the flattened
    [data] that the helper was given (the grayscale image, when the image
    was converted), and once it is computed [imgplot] prints its six lines
    (number of observations, minimum, maximum, mean, variance, skewness,
    in this order) and returns. *)
Theorem X10_describe_on_prints_six_lines (a : ImgplotArgs.t) :
  ImgplotArgs.describe a = VBool true ->
  always_calls computes_description (imgplot a) /\
  after_answer describes_plotted_data (imgplot a).
Proof.
  destruct a. cbn [ImgplotArgs.describe]. intros ->. unfold imgplot.
  split; explore fail.
Qed.

Lemma X10_witness :
  ImgplotArgs.describe (ImgplotArgs.defaults img) = VBool true /\
  always_calls computes_description (imgplot (ImgplotArgs.defaults img)) /\
  after_answer describes_plotted_data (imgplot (ImgplotArgs.defaults img)).
Proof.
  split; [reflexivity|].
  apply (X10_describe_on_prints_six_lines (ImgplotArgs.defaults img)).
  reflexivity.
Defined.

(** ** What [imgplot] returns, and when *)

(** X11: [imgplot] does not return without having called the helper's
    [plot], and what it returns is the axes of the answer of [plot]: not
    the [ax] it was given, unless the helper returns that one. *)
Theorem X11_imgplot_returns_plotted_axes (a : ImgplotArgs.t) :
  always_calls plots_image (imgplot a) /\
  after_answer returns_plotted_axes (imgplot a).
Proof. destruct a. unfold imgplot. split; explore fail. Qed.

(** X12: once its checks have passed, [imgplot] raises nothing itself,
    whatever the collaborators answer, provided [data] is an [ndarray] or
    [describe] is [False]. *)
Theorem X12_imgplot_completes (a : ImgplotArgs.t) :
  imgplot_checks a = Ok tt ->
  (exists arr, ImgplotArgs.data a = DNdarray arr) \/
  ImgplotArgs.describe a = VBool false ->
  completes any_answer (imgplot a).
Proof.
  destruct a. cbn [ImgplotArgs.data ImgplotArgs.describe].
  intros Hc Hd. unfold imgplot. rewrite Hc. cbn [lift bind].
  destruct Hd as [[arr ->]| ->]; explore fail.
Qed.

Lemma X12_witness :
  imgplot_checks args_list_no_describe = Ok tt /\
  ImgplotArgs.describe args_list_no_describe = VBool false /\
  completes any_answer (imgplot args_list_no_describe).
Proof.
  split; [reflexivity|]. split; [reflexivity|].
  apply (X12_imgplot_completes args_list_no_describe);
    [reflexivity | right; reflexivity].
Defined.

(** X13: for a [data] of one of Python's built-in types (a nested list,
    say), which has no [flatten], and [describe=True], the default,
    [imgplot] never returns.  With options that pass the checks, the only
    exception it raises itself is the [AttributeError] of
    [data.flatten()], and it raises it after the helper has been built and
    has plotted the image. *)
Theorem X13_imgplot_describe_needs_ndarray (a : ImgplotArgs.t) (v : pyval) :
  ImgplotArgs.data a = DOther v ->
  builtin v = true ->
  ImgplotArgs.describe a = VBool true ->
  always_calls (fun _ => False) (imgplot a) /\
  (imgplot_checks a = Ok tt ->
   forall tr e,
     raises_after (imgplot a) tr e ->
     e = AttributeError /\
     exists kw img_plotter,
       SetupImageArgs.data kw = DOther v /\
       tr = [SetupImage kw; SetupImage_plot img_plotter]).
Proof.
  destruct a. cbn [ImgplotArgs.data ImgplotArgs.describe].
  intros -> _ ->. unfold imgplot. split; [explore fail|].
  intros Hc tr e. rewrite Hc. cbn.
  intros (pl & tr1 & -> & [[f ax'] cax] & tr2 & -> & H).
  cbn in H. destruct H as [-> <-]. split; [reflexivity|].
  eexists. exists pl. split; [|reflexivity]. reflexivity.
Qed.

Lemma X13_witness :
  ImgplotArgs.data args_list = list_img /\
  ImgplotArgs.describe args_list = VBool true /\
  imgplot_checks args_list = Ok tt /\
  always_calls (fun _ => False) (imgplot args_list).
Proof.
  split; [reflexivity|]. split; [reflexivity|]. split; [reflexivity|].
  apply (X13_imgplot_describe_needs_ndarray args_list
           (VList [VList [VInt 1; VInt 2]; VList [VInt 3; VInt 4]]));
    reflexivity.
Defined.

(** X14: [imghist] never returns for a [data] of one of Python's built-in
    types (a nested list, say), whatever the options: at the latest,
    [data.ravel()] fails when the histogram is to be drawn, such a value
    having no [ravel]. *)
Theorem X14_imghist_needs_ndarray (a : ImghistArgs.t) (v : pyval) :
  ImghistArgs.data a = DOther v ->
  builtin v = true ->
  always_calls (fun _ => False) (imghist a).
Proof.
  destruct a. cbn [ImghistArgs.data]. intros -> _. unfold imghist.
  explore ltac:(apply always_calls_bind_r).
Qed.

Lemma X14_witness :
  ImghistArgs.data args_hist_list = list_img /\
  always_calls (fun _ => False) (imghist args_hist_list).
Proof.
  split; [reflexivity|].
  apply (X14_imghist_needs_ndarray args_hist_list
           (VList [VList [VInt 1; VInt 2]; VList [VInt 3; VInt 4]]));
    reflexivity.
Defined.

(** ** The figure of [imghist] *)

Section FlowLemmas.
Context {A B : Type}.
Implicit Types (p : prog A) (f : A -> prog B).

Lemma all_returns_bind Q p f :
  (forall r, all_returns Q (f r)) -> all_returns Q (bind p f).
Proof. intros Hf. induction p as [r|e|c k IH]; cbn; auto. Qed.

Lemma after_answer_bind (P : forall c, ret c -> prog B -> Prop) p f :
  after_answer (fun c x rest => P c x (bind rest f)) p ->
  (forall r, after_answer P (f r)) ->
  after_answer P (bind p f).
Proof.
  intros Hp Hf. induction p as [r|e|c k IH]; cbn in *; auto.
  intros x. destruct (Hp x) as [Hc Hk]. split; auto.
Qed.
End FlowLemmas.

(** [imgplot] makes calls of five kinds only. *)
Lemma imgplot_calls_only (P : call -> Prop) a :
  (forall d, P (Rgb2gray d)) ->
  (forall kw, P (SetupImage kw)) ->
  (forall img_plotter, P (SetupImage_plot img_plotter)) ->
  (forall x, P (SsDescribe x)) ->
  (forall label v, P (Print label v)) ->
  all_calls P (imgplot a).
Proof.
  intros Hg Hs Hp Hd Hpr. destruct a. unfold imgplot. walk fail; auto.
Qed.

Lemma imgplot_answers_irrelevant
  (P : forall c, ret c -> prog axes -> Prop) a :
  (forall d x rest, P (Rgb2gray d) x rest) ->
  (forall kw x rest, P (SetupImage kw) x rest) ->
  (forall img_plotter x rest, P (SetupImage_plot img_plotter) x rest) ->
  (forall v x rest, P (SsDescribe v) x rest) ->
  (forall label v x rest, P (Print label v) x rest) ->
  after_answer P (imgplot a).
Proof.
  intros Hg Hs Hp Hd Hpr. destruct a. unfold imgplot. explore fail; auto.
Qed.


Lemma color_patches_answers_irrelevant {R}
  (P : forall c, ret c -> prog R -> Prop) cm l (k : unit -> prog R) :
  (forall c v x rest, P (CmCall c v) x rest) ->
  (forall p s v x rest, P (PltSetp p s v) x rest) ->
  after_answer P (k tt) ->
  after_answer P (bind (color_patches cm l) k).
Proof.
  intros Hcm Hsetp Hk. induction l as [|[c p] l IH]; simpl; [exact Hk|].
  intros x. split; [apply Hcm|]. intros []. split; [apply Hsetp|]. exact IH.
Qed.

(** Past a whole function that is called in between, or the loop, when
    the property at hand asks nothing of their calls. *)
Ltac through :=
  first
    [ apply all_calls_bind;
        [ solve [apply imgplot_calls_only; cbn; auto] | intro ]
    | apply all_calls_bind;
        [ solve [apply color_patches_calls; cbn; auto] | intro ]
    | apply all_returns_bind; intro
    | apply never_raises_bind;
        [ solve [apply color_patches_never_raises] | intro ]
    | apply after_answer_bind;
        [ solve [apply imgplot_answers_irrelevant; cbn; auto] | intro ]
    | apply color_patches_answers_irrelevant;
        [ solve [cbn; auto] | solve [cbn; auto] | ] ].

(** The two cases of [f.axes[1]]. *)
Ltac second_axes :=
  match goal with
  | |- (List.length ?l < 2)%nat -> _ = Raise IndexError =>
      destruct l as [|? [|? ?]]; cbn; intro; first [reflexivity | lia]
  | |- (2 <= List.length ?l)%nat -> _ =>
      destruct l as [|? [|? ?]]; cbn; intro; [lia | lia |]
  end.

(** X15: in [imghist], once the image is drawn and [f.axes] has answered:
    if the figure has fewer than two axes (no colorbar was added to it),
    all that [imghist] does is to raise the [IndexError] of [f.axes[1]],
    and no histogram is drawn; if it has two or more, [imghist] raises no
    [IndexError]. *)
Theorem X15_imghist_needs_colorbar_axes (a : ImghistArgs.t) :
  after_answer needs_colorbar_axes (imghist a).
Proof.
  destruct a. unfold imghist.
  repeat first [ second_axes | explore_step through ].
Qed.

Lemma X15_witness :
  after_answer needs_colorbar_axes (imghist (ImghistArgs.defaults rgb_img)).
Proof.
  exact (X15_imghist_needs_colorbar_axes (ImghistArgs.defaults rgb_img)).
Defined.



(** ** The layout of [imghist] *)

(** X17: in every call of [imghist] that returns, [orientation] is one of
    the four spellings, and the figure is laid out by these calls, in this
    order and no others of their kinds.  With ["v"] or ["vertical"]: a
    figure [height] high, a grid of one row and two columns whose second
    width ratio is 1, the image panel in the first cell and, in the second,
    the histogram panel, which shares its y-axis and holds a density
    histogram with horizontal bars.  With ["h"] or ["horizontal"] the
    layout is transposed: a figure [height] wide, two rows and one column,
    the second height ratio 1, a shared x-axis and vertical bars.  The
    grid is the figure's, the subplots are taken from that grid, and the
    histogram is drawn on the second of them. *)
Theorem X17_imghist_layout (a : ImghistArgs.t) h f :
  history (imghist a) h (Ok f) ->
  exists size ratio fig gs ax1 cax ax2 x bins answer,
    ((ImghistArgs.orientation a = VStr "v" \/
      ImghistArgs.orientation a = VStr "vertical") /\
     events_of lays_out h
     = [ev (PltFigure (size, ImghistArgs.height a)) fig;
        ev (GridSpec 1 2 (width_ratios [ratio; 1%Q]) fig) gs;
        ev (AddSubplot fig gs 0 None) ax1;
        ev (AddSubplot fig gs 1 (Some (YAxis, cax))) ax2;
        ev (AxHist ax2 x bins true "horizontal") answer]) \/
    ((ImghistArgs.orientation a = VStr "h" \/
      ImghistArgs.orientation a = VStr "horizontal") /\
     events_of lays_out h
     = [ev (PltFigure (ImghistArgs.height a, size)) fig;
        ev (GridSpec 2 1 (height_ratios [ratio; 1%Q]) fig) gs;
        ev (AddSubplot fig gs 0 None) ax1;
        ev (AddSubplot fig gs 1 (Some (XAxis, cax))) ax2;
        ev (AxHist ax2 x bins true "vertical") answer]).
Proof.
  destruct a. cbn [ImghistArgs.orientation ImghistArgs.height].
  revert h f. by_runs Body HBody.
  unfold imghist, imgplot; runs; at_return.
  all: do 10 eexists.
  all: first
         [ left; split;
           [ match goal with
             | H : _ = true |- ?o = VStr "v" \/ _ => exact (py_in_two o _ _ H)
             end
           | singled_out ]
         | right; split;
           [ match goal with
             | H : _ = true |- ?o = VStr "h" \/ _ => exact (py_in_two o _ _ H)
             end
           | singled_out ] ].
Qed.

Lemma X17_witness :
  exists h f,
    history (imghist args_hist_h) h (Ok f) /\
    exists size ratio fig gs ax1 cax ax2 x bins answer,
      ((ImghistArgs.orientation args_hist_h = VStr "v" \/
        ImghistArgs.orientation args_hist_h = VStr "vertical") /\
       events_of lays_out h
       = [ev (PltFigure (size, ImghistArgs.height args_hist_h)) fig;
          ev (GridSpec 1 2 (width_ratios [ratio; 1%Q]) fig) gs;
          ev (AddSubplot fig gs 0 None) ax1;
          ev (AddSubplot fig gs 1 (Some (YAxis, cax))) ax2;
          ev (AxHist ax2 x bins true "horizontal") answer]) \/
      ((ImghistArgs.orientation args_hist_h = VStr "h" \/
        ImghistArgs.orientation args_hist_h = VStr "horizontal") /\
       events_of lays_out h
       = [ev (PltFigure (ImghistArgs.height args_hist_h, size)) fig;
          ev (GridSpec 2 1 (height_ratios [ratio; 1%Q]) fig) gs;
          ev (AddSubplot fig gs 0 None) ax1;
          ev (AddSubplot fig gs 1 (Some (XAxis, cax))) ax2;
          ev (AxHist ax2 x bins true "vertical") answer]).
Proof.
  destruct (record scripted (imghist args_hist_h) tt)
    as [h [f|e]] eqn:Hrec; [|vm_compute in Hrec; discriminate Hrec].
  pose proof (record_history scripted _ tt h f Hrec) as Hh.
  exists h, f. split; [exact Hh|].
  exact (X17_imghist_layout args_hist_h h f Hh).
Defined.

(** ** The histogram panel *)

(** X18: in every call of [imghist] that returns, after the image panel
    has been added, the figure is asked for its axes once, a second
    subplot is added that shares an axis with the second of the axes the
    figure answered (the colorbar's), and the histogram is drawn once, on
    the axes that this second [add_subplot] answered and over the
    flattened [data], all channels of an RGB image included: these four
    calls in this order, and no other subplot, look at [f.axes] or
    histogram.  Every histogram, [set_visible] of an axis and
    [set_frame_on] of the run is on those axes, none on another. *)
Theorem X18_imghist_histogram_panel (a : ImghistArgs.t) h f :
  history (imghist a) h (Ok f) ->
  exists fig gs ax1 fig_axes which cax ax2 x bins orientation answer,
    events_of builds_panels h
    = [ev (AddSubplot fig gs 0 None) ax1;
       ev (FigAxes fig) fig_axes;
       ev (AddSubplot fig gs 1 (Some (which, cax))) ax2;
       ev (AxHist ax2 x bins true orientation) answer] /\
    nth_error fig_axes 1 = Some cax /\
    ravel (ImghistArgs.data a) = Ok x /\
    Forall (fun e => on_panel ax2 (call_of e)) h.
Proof.
  destruct a. cbn [ImghistArgs.data].
  revert h f. by_runs Body HBody.
  unfold imghist, imgplot; runs; at_return.
  all: do 11 eexists; split; [singled_out|].
  all: split; [reflexivity|]; split; [reflexivity|].
  all: repeat (apply Forall_cons; [cbn; auto|]).
  all: apply coloring_events_all; cbn; auto.
Qed.

Lemma X18_witness :
  exists h f,
    history (imghist (ImghistArgs.defaults rgb_img)) h (Ok f) /\
    exists fig gs ax1 fig_axes which cax ax2 x bins orientation answer,
      events_of builds_panels h
      = [ev (AddSubplot fig gs 0 None) ax1;
         ev (FigAxes fig) fig_axes;
         ev (AddSubplot fig gs 1 (Some (which, cax))) ax2;
         ev (AxHist ax2 x bins true orientation) answer] /\
      nth_error fig_axes 1 = Some cax /\
      ravel (ImghistArgs.data (ImghistArgs.defaults rgb_img)) = Ok x /\
      Forall (fun e => on_panel ax2 (call_of e)) h.
Proof.
  destruct (record scripted (imghist (ImghistArgs.defaults rgb_img)) tt)
    as [h [f|e]] eqn:Hrec; [|vm_compute in Hrec; discriminate Hrec].
  pose proof (record_history scripted _ tt h f Hrec) as Hh.
  exists h, f. split; [exact Hh|].
  exact (X18_imghist_histogram_panel (ImghistArgs.defaults rgb_img) h f Hh).
Defined.

(** ** The colours of the bars *)

Lemma is_None_spec v : is_None v = true <-> v = VNone.
Proof. destruct v; simpl; split; congruence. Qed.

(** X19: in every call of [imghist] that returns, the colormap of the bars
    has been looked up in one of three ways, and in that way only.  With
    [cmap=None] the one lookup is [get_cmap()], which answers the current
    default.  With any other [cmap], the package's table of qualitative
    colormaps is asked whether it knows [cmap]: if it does, the colormap
    is taken from the table; if it does not, from matplotlib, by the same
    [cmap]; the default is not asked for.  Every colour of a bar is
    computed with the colormap that the lookup answered. *)
Theorem X19_imghist_colormap_choice (a : ImghistArgs.t) h f :
  history (imghist a) h (Ok f) ->
  exists cm,
    ((ImghistArgs.cmap a = VNone /\
      events_of looks_up_colormap h = [ev GetCmap cm]) \/
     (ImghistArgs.cmap a <> VNone /\
      (events_of looks_up_colormap h
       = [ev (CmapQualContains (ImghistArgs.cmap a)) true;
          ev (CmapQualGet (ImghistArgs.cmap a)) cm] \/
       events_of looks_up_colormap h
       = [ev (CmapQualContains (ImghistArgs.cmap a)) false;
          ev (PltCmGetCmap (ImghistArgs.cmap a)) cm]))) /\
    Forall (fun e => colours_with cm (call_of e)) h.
Proof.
  destruct a. cbn [ImghistArgs.cmap].
  revert h f. by_runs Body HBody.
  unfold imghist, imgplot; runs; at_return.
  all: eexists; split;
    [ match goal with
      | H : is_None ?c = true |- _ =>
          left; split; [now apply is_None_spec|singled_out]
      | H : is_None ?c = false |- _ =>
          right; split;
          [ intros Hc; rewrite Hc in H; discriminate H
          | first [left; singled_out | right; singled_out] ]
      end
    | ].
  all: repeat (apply Forall_cons; [cbn; auto|]).
  all: apply coloring_events_all; cbn; auto.
Qed.

Lemma X19_witness :
  exists h f,
    history (imghist args_hist_deep) h (Ok f) /\
    exists cm,
      ((ImghistArgs.cmap args_hist_deep = VNone /\
        events_of looks_up_colormap h = [ev GetCmap cm]) \/
       (ImghistArgs.cmap args_hist_deep <> VNone /\
        (events_of looks_up_colormap h
         = [ev (CmapQualContains (ImghistArgs.cmap args_hist_deep)) true;
            ev (CmapQualGet (ImghistArgs.cmap args_hist_deep)) cm] \/
         events_of looks_up_colormap h
         = [ev (CmapQualContains (ImghistArgs.cmap args_hist_deep)) false;
            ev (PltCmGetCmap (ImghistArgs.cmap args_hist_deep)) cm]))) /\
      Forall (fun e => colours_with cm (call_of e)) h.
Proof.
  destruct (record scripted (imghist args_hist_deep) tt)
    as [h [f|e]] eqn:Hrec; [|vm_compute in Hrec; discriminate Hrec].
  pose proof (record_history scripted _ tt h f Hrec) as Hh.
  exists h, f. split; [exact Hh|].
  exact (X19_imghist_colormap_choice args_hist_deep h f Hh).
Defined.

(** X20: in every call of [imghist] that returns, the histogram, the
    arithmetic on its edges and the colouring of its bars are these calls,
    in this order, and no others of their kinds.  [hist] answers counts,
    edges and bars; the centres are the sum of the edges without the last
    and the edges without the first; they are shifted by their minimum,
    and the shifted values divided by their maximum; then, for each pair
    of [zip] of the result and the bars, in order, the colormap is called
    on the value and the colour it answers is set as the ["facecolor"] of
    the bar.  There are as many pairs as the shorter of the two has
    elements. *)
Theorem X20_imghist_bar_values (a : ImghistArgs.t) h f :
  history (imghist a) h (Ok f) ->
  exists ax2 x bins0 orientation n bins patches,
  exists bin_centers lo shifted hi col cm colors,
    events_of colours_bars h
    = ev (AxHist ax2 x bins0 true orientation) (n, bins, patches)
        :: ev (NpAdd (removelast bins) (tl bins)) bin_centers
        :: ev (NpMin bin_centers) lo
        :: ev (NpSub bin_centers lo) shifted
        :: ev (NpMax shifted) hi
        :: ev (NpIDiv shifted hi) col
        :: coloring_events cm (combine col patches) colors /\
    List.length colors = Nat.min (List.length col) (List.length patches).
Proof.
  destruct a. revert h f. by_runs Body HBody.
  unfold imghist, imgplot; runs; at_return.
  all: do 14 eexists; split; [singled_out|].
  all: match goal with
       | H : List.length _ = List.length (combine _ _) |- _ =>
           rewrite length_combine in H; exact H
       end.
Qed.

Lemma X20_witness :
  exists h f,
    history (imghist (ImghistArgs.defaults img)) h (Ok f) /\
    exists ax2 x bins0 orientation n bins patches,
    exists bin_centers lo shifted hi col cm colors,
      events_of colours_bars h
      = ev (AxHist ax2 x bins0 true orientation) (n, bins, patches)
          :: ev (NpAdd (removelast bins) (tl bins)) bin_centers
          :: ev (NpMin bin_centers) lo
          :: ev (NpSub bin_centers lo) shifted
          :: ev (NpMax shifted) hi
          :: ev (NpIDiv shifted hi) col
          :: coloring_events cm (combine col patches) colors /\
      List.length colors = Nat.min (List.length col) (List.length patches).
Proof.
  destruct (record scripted (imghist (ImghistArgs.defaults img)) tt)
    as [h [f|e]] eqn:Hrec; [|vm_compute in Hrec; discriminate Hrec].
  pose proof (record_history scripted _ tt h f Hrec) as Hh.
  exists h, f. split; [exact Hh|].
  exact (X20_imghist_bar_values (ImghistArgs.defaults img) h f Hh).
Defined.

(** X21: the colouring loop runs over the pairs of [zip(col, patches)],
    in order: for each pair it calls the colormap on the value and sets
    the colour it gets as the ["facecolor"] of the bar, and then it
    returns.  It makes twice as many calls as the shorter of [col] and
    [patches] has elements, so bars or values beyond the shorter of the
    two are left out. *)
Theorem X21_color_patches_pairs (cm : colormap) (col : vec)
  (patches : list patch) (tr : list call) :
  returns_after (color_patches cm (combine col patches)) tr tt <->
  exists colors,
    List.length colors = Nat.min (List.length col) (List.length patches) /\
    tr = coloring cm (combine col patches) colors.
Proof.
  rewrite <- length_combine.
  generalize (combine col patches) as l. clear col patches.
  intros l. revert tr. induction l as [|[c p] l IH]; intros tr.
  - split.
    + intros [-> _]. now exists [].
    + intros (colors & Hlen & ->). destruct colors; [|discriminate].
      split; reflexivity.
  - split.
    + intros (color & tr1 & -> & [] & tr2 & -> & H).
      apply IH in H. destruct H as (colors & Hlen & ->).
      exists (color :: colors). split; [cbn; now rewrite Hlen|reflexivity].
    + intros (colors & Hlen & ->).
      destruct colors as [|color colors]; [discriminate|].
      injection Hlen as Hlen.
      exists color. eexists. split; [reflexivity|].
      exists tt. eexists. split; [reflexivity|].
      apply IH. now exists colors.
Qed.

Lemma X21_witness :
  returns_after
    (color_patches 0%nat (combine [FFin 0; FFin (1 # 2); FFin 1]
                            [7%nat; 8%nat]))
    [CmCall 0%nat (FFin 0); PltSetp 7%nat "facecolor" 3%nat;
     CmCall 0%nat (FFin (1 # 2)); PltSetp 8%nat "facecolor" 4%nat] tt.
Proof.
  apply (X21_color_patches_pairs 0%nat [FFin 0; FFin (1 # 2); FFin 1]
           [7%nat; 8%nat]).
  exists [3%nat; 4%nat]. split; reflexivity.
Defined.

(** ** Options that [imgplot] rejects, given to [imghist] *)

(** The checks of [imgplot] on what [imghist] forwards depend on neither
    the axes nor the spelling of the orientation. *)
Lemma forwarded_checks a ax1 s ax1' s' :
  imgplot_checks (forwarded a ax1 (VStr s))
  = imgplot_checks (forwarded a ax1' (VStr s')).
Proof. destruct a. reflexivity. Qed.

(** X22: when [bins] and [orientation] are in order and the other options
    are such that the checks of [imgplot] fail with [e], [imghist] never
    returns, and whenever it raises something itself, it raises this [e],
    after the three calls that create the figure, its grid and the axes of
    the image panel. *)
Theorem X22_imghist_raises_what_imgplot_raises (a : ImghistArgs.t)
  (s : string) (e : exn) :
  (exists b, imghist_bins (ImghistArgs.bins a) = Ok b) ->
  In s orientations ->
  ImghistArgs.orientation a = VStr s ->
  imgplot_checks (forwarded a 0%nat (VStr s)) = Err e ->
  always_calls (fun _ => False) (imghist a) /\
  forall tr e',
    raises_after (imghist a) tr e' -> e' = e /\ is_figure_setup tr.
Proof.
  intros [b Hb] Hs Ho Hc.
  assert (Hraise : forall ax1 s',
            imgplot (forwarded a ax1 (VStr s')) = Raise e).
  { intros ax1 s'. apply imgplot_raises.
    now rewrite (forwarded_checks a ax1 s' 0%nat s). }
  clear Hc. destruct a.
  cbn [ImghistArgs.bins ImghistArgs.orientation] in Hb, Ho. subst orientation.
  unfold imghist. rewrite Hb. cbn [lift bind].
  destruct Hs as [<-|[<-|[<-|[<-|[]]]]]; cbn.
  all: split;
    [ right; intros f; right; intros gs; right; intros ax1;
      rewrite Hraise; exact I
    | intros tr e' (f & ? & -> & gs & ? & -> & ax1 & ? & -> & H);
      rewrite Hraise in H; destruct H as [-> <-];
      split; [reflexivity|]; unfold is_figure_setup; eauto 8 ].
Qed.

Lemma X22_witness :
  imgplot_checks (forwarded args_hist_cmap_5 0%nat (VStr "v"))
  = Err TypeError /\
  always_calls (fun _ => False) (imghist args_hist_cmap_5).
Proof.
  split; [reflexivity|].
  apply (X22_imghist_raises_what_imgplot_raises args_hist_cmap_5 "v"
           TypeError);
    [ now exists (VStr "auto") | now left | reflexivity | reflexivity ].
Defined.

(** ** What [imghist] hands to the helper *)

(** Past [imgplot], going through it as well. *)
Ltac into_imgplot :=
  first
    [ apply all_calls_bind; [ solve [unfold imgplot; explore fail] | intro ]
    | through ].

(** X23: [imghist] hands its image and its options through [imgplot] to
    the helper as the caller gave them: [data] (never converted), [cmap]
    (never defaulted to ["gray"]), [vmin], [vmax], [perc], [dx], [units],
    [dimension], [cbar_label], [cbar_ticks], [showticks] and [despine];
    and [cbar] and [robust] too, unless [data] is an [ndarray] of exactly
    three dimensions. *)
Theorem X23_imghist_forwards_options (a : ImghistArgs.t) :
  all_calls (helper_gets (forwards_options a)) (imghist a) /\
  (~ is_3d (ImghistArgs.data a) ->
   all_calls (helper_gets (forwards_flags a)) (imghist a)).
Proof.
  destruct a. cbn [ImghistArgs.data]. split.
  - unfold imghist, forwards_options. explore into_imgplot.
  - intros Hd. unfold imghist, forwards_flags.
    destruct data as [arr|v].
    + destruct (Nat.eqb_spec (ndim arr) 3) as [E|E].
      * exfalso. apply Hd. now exists arr.
      * apply Nat.eqb_neq in E.
        explore ltac:(
          first [ apply all_calls_bind;
                    [ solve [unfold imgplot; cbn; rewrite E;
                             explore fail] | intro ]
                | through ]).
    + explore into_imgplot.
Qed.

Lemma X23_witness :
  ~ is_3d (ImghistArgs.data args_hist_deep) /\
  all_calls (helper_gets (forwards_options args_hist_deep))
    (imghist args_hist_deep) /\
  all_calls (helper_gets (forwards_flags args_hist_deep))
    (imghist args_hist_deep).
Proof.
  assert (H : ~ is_3d (ImghistArgs.data args_hist_deep)).
  { intros (arr & Harr & Hdim). injection Harr as <-. discriminate Hdim. }
  split; [exact H|].
  destruct (X23_imghist_forwards_options args_hist_deep) as [Hopt Hflags].
  split; [exact Hopt | exact (Hflags H)].
Defined.
